(** * Control messages of the FusionEngine client: pack / unpack

    A shallow embedding of
    [python/fusion_engine_client/messages/control.py]: the three payloads
    [CommandResponseMessage], [MessageRequest] and [ResetRequest], together
    with the part of Python's [struct] module their [pack] and [unpack]
    methods call ([calcsize], [pack_into], [unpack_from] on the formats
    ['<IB3x'], ['<H2x'] and ['<I']).

    Python integers are [Z]; a [bytearray] is a [list byte]; a call that may
    raise returns an [outcome]; a method that mutates an object (the buffer
    for [pack], the instance for [unpack]) is a computation in a small
    state-and-exception monad whose state is that object. *)

From Stdlib Require Import String Ascii HexString.
From Stdlib Require Import ZArith List Lia Bool.
From coqutil Require Import Byte Word.LittleEndianList.
Import ListNotations.

Local Open Scope Z_scope.

(** ** Exceptions and outcomes *)

(** The exceptions the modelled code can raise: [struct.error],
    [ValueError] (a failed enum lookup, or a tuple assignment of the wrong
    length), [AttributeError] ([.value] on a plain integer) and [IndexError]
    (indexing an empty tuple). *)
Inductive exn : Set :=
| StructError
| ValueError
| AttributeError
| IndexError.

Inductive outcome (A : Type) : Type :=
| Return (a : A)
| Raise (e : exn).

Arguments Return {A} a.
Arguments Raise {A} e.

Definition exn_eqb (a b : exn) : bool :=
  match a, b with
  | StructError, StructError => true
  | ValueError, ValueError => true
  | AttributeError, AttributeError => true
  | IndexError, IndexError => true
  | _, _ => false
  end.

(** ** A state-and-exception monad

    [M S A] is a Python statement sequence acting on one mutable object of
    type [S]: it ends in a value or in a raised exception, and in both cases
    the object keeps whatever was written to it before. *)

Definition M (S A : Type) : Type := S -> S * outcome A.

Definition ret {S A} (a : A) : M S A := fun s => (s, Return a).

Definition raise {S A} (e : exn) : M S A := fun s => (s, Raise e).

Definition bind {S A B} (c : M S A) (k : A -> M S B) : M S B :=
  fun s =>
    match c s with
    | (s', Return a) => k a s'
    | (s', Raise e) => (s', Raise e)
    end.

Definition get {S} : M S S := fun s => (s, Return s).

Definition put {S} (s : S) : M S unit := fun _ => (s, Return tt).

(** A pure call that may raise, made from inside a method. *)
Definition call {S A} (o : outcome A) : M S A := fun s => (s, o).

(** [try: body  except e: handler]. State written by [body] before the
    exception stays written. *)
Definition try_except {S A} (body : M S A) (e : exn) (handler : M S A) : M S A :=
  fun s =>
    match body s with
    | (s', Return a) => (s', Return a)
    | (s', Raise e') => if exn_eqb e e' then handler s' else (s', Raise e')
    end.

Declare Scope py_scope.
Delimit Scope py_scope with py.
Notation "x <- c ;; k" := (bind c (fun x => k))
  (at level 61, c at next level, right associativity) : py_scope.
Notation "c ;; k" := (bind c (fun _ => k))
  (at level 61, right associativity) : py_scope.

(** ** Buffers *)

Definition bytearray : Type := list byte.

(** [bytearray(n)]: [n] zero bytes. *)
Definition bytearray_new (n : Z) : bytearray := repeat Byte.x00 (Z.to_nat n).

(** [if buffer is None: buffer = bytearray(size)] *)
Definition buffer_or_new (buffer : option bytearray) (size : Z) : bytearray :=
  match buffer with
  | None => bytearray_new size
  | Some b => b
  end.

Definition len (b : bytearray) : Z := Z.of_nat (length b).

(** The byte at index [i], counted from the start of the buffer; [None]
    outside of it. *)
Definition byte_at (b : bytearray) (i : Z) : option byte :=
  if i <? 0 then None else nth_error b (Z.to_nat i).

(** ** The ['%08x'] conversion of the [%] operator

    The hexadecimal digits of an integer, in lower case and without prefix,
    padded with zeros on the left to eight characters; a negative integer
    has its sign first and the padding after it. *)





(** ** The [struct] module *)

Module struct.

(** The format characters the three messages use:
    [I] unsigned 32 bits, [H] unsigned 16 bits, [B] unsigned 8 bits,
    [x] one pad byte. *)
Inductive code : Set := code_I | code_H | code_B | code_x.

Definition code_size (c : code) : nat :=
  match c with
  | code_I => 4
  | code_H => 2
  | code_B => 1
  | code_x => 1
  end%nat.

Definition code_of_ascii (a : ascii) : option code :=
  match a with
  | "I"%char => Some code_I
  | "H"%char => Some code_H
  | "B"%char => Some code_B
  | "x"%char => Some code_x
  | _ => None
  end.

Definition digit_of_ascii (a : ascii) : option nat :=
  let n := nat_of_ascii a in
  if ((48 <=? n) && (n <=? 57))%nat then Some (n - 48)%nat else None.

(** The items of a format after its byte-order character: each is a
    format character, optionally preceded by a decimal repeat count. A
    count with no character after it is an error. *)
Fixpoint parse_items (s : string) (count : option nat) : option (list code) :=
  match s with
  | EmptyString =>
      match count with
      | None => Some []
      | Some _ => None
      end
  | String a rest =>
      match digit_of_ascii a with
      | Some d =>
          parse_items rest
            (Some (10 * (match count with Some n => n | None => 0 end) + d)%nat)
      | None =>
          match code_of_ascii a with
          | Some c =>
              match parse_items rest None with
              | Some cs =>
                  Some (repeat c (match count with Some n => n | None => 1%nat end) ++ cs)
              | None => None
              end
          | None => None
          end
      end
  end.

(** Only the ['<'] mode is modelled: little-endian, standard sizes, no
    alignment. *)
Definition parse_format (fmt : string) : option (list code) :=
  match fmt with
  | String "<"%char items => parse_items items None
  | _ => None
  end.

Fixpoint size_of (cs : list code) : nat :=
  match cs with
  | [] => 0
  | c :: cs' => code_size c + size_of cs'
  end%nat.

(** Number of arguments a format takes: pad bytes take none. *)
Fixpoint arity (cs : list code) : nat :=
  match cs with
  | [] => 0
  | code_x :: cs' => arity cs'
  | _ :: cs' => S (arity cs')
  end%nat.

(** [struct.calcsize(fmt)] *)
Definition calcsize (fmt : string) : outcome Z :=
  match parse_format fmt with
  | Some cs => Return (Z.of_nat (size_of cs))
  | None => Raise StructError
  end.

(** A value fits an unsigned field of [code_size c] bytes. *)
Definition in_range (c : code) (v : Z) : bool :=
  (0 <=? v) && (v <? 2 ^ (8 * Z.of_nat (code_size c))).

(** The packing loop. The destination window has been zeroed beforehand, so
    when a value is out of range the bytes from that field on are zero and
    the fields before it are written. Returns the window's contents and
    the error, if any. *)
Fixpoint pack_internal (cs : list code) (vals : list Z) : list byte * option exn :=
  match cs with
  | [] => ([], None)
  | code_x :: cs' =>
      let (w, e) := pack_internal cs' vals in (Byte.x00 :: w, e)
  | c :: cs' =>
      match vals with
      | [] => (repeat Byte.x00 (size_of cs), Some StructError)
      | v :: vals' =>
          if in_range c v then
            let (w, e) := pack_internal cs' vals' in
            (le_split (code_size c) v ++ w, e)
          else (repeat Byte.x00 (size_of cs), Some StructError)
      end
  end.

(** The unpacking loop over a window of [size_of cs] bytes. *)
Fixpoint unpack_internal (cs : list code) (w : list byte) : list Z :=
  match cs with
  | [] => []
  | code_x :: cs' => unpack_internal cs' (skipn 1 w)
  | c :: cs' =>
      le_combine (firstn (code_size c) w)
        :: unpack_internal cs' (skipn (code_size c) w)
  end.

(** Whether byte [i] of a window laid out by [cs] is a pad byte. *)
Fixpoint pad_at (cs : list code) (i : nat) : bool :=
  match cs with
  | [] => false
  | code_x :: cs' =>
      match i with
      | O => true
      | S i' => pad_at cs' i'
      end
  | c :: cs' =>
      if (i <? code_size c)%nat then false else pad_at cs' (i - code_size c)
  end.

(** Where in a buffer of [blen] bytes an access of [size] bytes at
    [offset] starts. A negative offset counts from the end of the
    buffer. [None] is [struct.error]: the access does not fit. *)
Definition resolve_offset (blen size offset : Z) : option Z :=
  if offset <? 0 then
    if 0 <? offset + size then None
    else if offset + blen <? 0 then None
    else
      let offset := offset + blen in
      if blen - offset <? size then None else Some offset
  else
    if blen - offset <? size then None else Some offset.

(** The [size] bytes of [b] from [start] on. *)
Definition window (b : bytearray) (start : Z) (size : nat) : list byte :=
  firstn size (skipn (Z.to_nat start) b).

(** [b] with the bytes from [start] on overwritten by [w]. *)
Definition splice (b : bytearray) (start : Z) (w : list byte) : bytearray :=
  firstn (Z.to_nat start) b ++ w ++ skipn (Z.to_nat start + length w) b.

(** [struct.pack_into(fmt, buffer, offset, *vals)], acting on the
    buffer. The argument count is checked first, then the offset; only
    then is the buffer written. *)
Definition pack_into (fmt : string) (offset : Z) (vals : list Z) : M bytearray unit :=
  fun buffer =>
    match parse_format fmt with
    | None => (buffer, Raise StructError)
    | Some cs =>
        if negb (Nat.eqb (length vals) (arity cs)) then (buffer, Raise StructError)
        else
          match resolve_offset (len buffer) (Z.of_nat (size_of cs)) offset with
          | None => (buffer, Raise StructError)
          | Some start =>
              let (w, e) := pack_internal cs vals in
              (splice buffer start w,
               match e with
               | None => Return tt
               | Some x => Raise x
               end)
          end
    end.

(** [struct.unpack_from(fmt, buffer=buffer, offset=offset)] *)
Definition unpack_from (fmt : string) (buffer : bytearray) (offset : Z) : outcome (list Z) :=
  match parse_format fmt with
  | None => Raise StructError
  | Some cs =>
      match resolve_offset (len buffer) (Z.of_nat (size_of cs)) offset with
      | None => Raise StructError
      | Some start => Return (unpack_internal cs (window buffer start (size_of cs)))
      end
  end.

End struct.

(** ** What [pack] returns

    With [return_buffer] the method returns the buffer object it wrote to,
    which is the object the computation's state describes; otherwise it
    returns a byte count. *)
Inductive pack_result : Set :=
| RetBuffer
| RetCount (n : Z).

(** ** [defs.py]: the message type enumeration

    [control.py] takes [MessageType] from [defs.py] and uses it as an
    enumeration: members such as [MessageType.INVALID], the [.value] of a
    member, and the call [MessageType(v)] that looks a member up by value.
    The table of members is a parameter, [members], the list of their
    values; a member is represented by its value. The lookup is that of
    Python's [Enum]: the member with that value, and [ValueError] when there
    is none. *)
Module defs.

Record MessageType_member : Set := { value : Z }.

Definition MessageType (members : list Z) (v : Z) : outcome MessageType_member :=
  if existsb (Z.eqb v) members then Return {| value := v |}
  else Raise ValueError.

End defs.

(** ** [CommandResponseMessage] *)

Module CommandResponseMessage.

Inductive Response : Set :=
| OK
| UNSUPPORTED_CMD_VERSION
| UNSUPPORTED_FEATURE
| VALUE_ERROR
| INSUFFICIENT_SPACE
| EXECUTION_FAILURE.

Definition Response_value (r : Response) : Z :=
  match r with
  | OK => 0
  | UNSUPPORTED_CMD_VERSION => 1
  | UNSUPPORTED_FEATURE => 2
  | VALUE_ERROR => 3
  | INSUFFICIENT_SPACE => 4
  | EXECUTION_FAILURE => 5
  end.

(** The call [Response(v)]: lookup by value, [ValueError] when no member
    has that value. *)
Definition Response_call (v : Z) : outcome Response :=
  match v with
  | 0 => Return OK
  | 1 => Return UNSUPPORTED_CMD_VERSION
  | 2 => Return UNSUPPORTED_FEATURE
  | 3 => Return VALUE_ERROR
  | 4 => Return INSUFFICIENT_SPACE
  | 5 => Return EXECUTION_FAILURE
  | _ => Raise ValueError
  end.

(** What the attribute [response] may hold: a member of [Response], or a
    plain [int] (what [unpack] leaves for a byte no member has). *)
Inductive response_value : Set :=
| Member (r : Response)
| Plain (n : Z).

(** [int(self.response)] *)
Definition int (x : response_value) : Z :=
  match x with
  | Member r => Response_value r
  | Plain n => n
  end.

(** [isinstance(self.response, CommandResponseMessage.Response)] *)
Definition is_member (x : response_value) : bool :=
  match x with
  | Member _ => true
  | Plain _ => false
  end.

Record t : Set := {
  source_sequence_num : Z;
  response : response_value
}.

(** The attribute values the format ['<IB3x'] can hold: an unsigned 32-bit
    sequence number and a response whose integer value fits a byte. *)
Definition valid (x : t) : bool :=
  (0 <=? source_sequence_num x) && (source_sequence_num x <? 2 ^ 32)
  && (0 <=? int (response x)) && (int (response x) <? 2 ^ 8).

(** A response in the form [unpack] leaves it in: a plain [int] only when
    no member of [Response] has that value. *)
Definition canonical (x : response_value) : bool :=
  match x with
  | Member _ => true
  | Plain n =>
      match Response_call n with
      | Return _ => false
      | Raise _ => true
      end
  end.

Definition _FORMAT : string := "<IB3x".

Definition _SIZE : Z :=
  match struct.calcsize _FORMAT with
  | Return n => n
  | Raise _ => 0
  end.

Definition __init__ : t :=
  {| source_sequence_num := 0; response := Member OK |}.

Definition calcsize : Z := _SIZE.

Definition pack (self : t) (buffer : option bytearray) (offset : Z)
    (return_buffer : bool) : bytearray * outcome pack_result :=
  let buffer := buffer_or_new buffer calcsize in
  (let initial_offset := offset in
   struct.pack_into _FORMAT offset
     [source_sequence_num self; int (response self)] ;;
   let offset := _SIZE in
   if return_buffer then ret RetBuffer
   else ret (RetCount (offset - initial_offset)))%py buffer.

Definition unpack (self : t) (buffer : bytearray) (offset : Z) : t * outcome Z :=
  (let initial_offset := offset in
   fields <- call (struct.unpack_from _FORMAT buffer offset) ;;
   match fields with
   | [f0; f1] =>
       put {| source_sequence_num := f0; response := Plain f1 |} ;;
       let offset := _SIZE in
       try_except
         (self <- get ;;
          r <- call (Response_call (int (response self))) ;;
          put {| source_sequence_num := source_sequence_num self;
                 response := Member r |})
         ValueError
         (ret tt) ;;
       ret (offset - initial_offset)
   | _ => raise ValueError
   end)%py self.

End CommandResponseMessage.

(** ** [MessageRequest] *)

Module MessageRequest.

(** What the attribute [message_type] may hold: a member of
    [MessageType], as annotated, or a plain [int] a caller put there. *)
Inductive message_type_value : Set :=
| Member (m : defs.MessageType_member)
| Plain (n : Z).

(** [self.message_type.value]: a plain [int] has no such attribute. *)
Definition dot_value (x : message_type_value) : outcome Z :=
  match x with
  | Member m => Return (defs.value m)
  | Plain _ => Raise AttributeError
  end.

Record t : Set := { message_type : message_type_value }.

(** The attribute values of a well-typed request: a member of
    [MessageType] whose value fits the 16 bits of ['<H2x']. *)
Definition valid (members : list Z) (x : t) : bool :=
  match message_type x with
  | Member m =>
      existsb (Z.eqb (defs.value m)) members
      && (0 <=? defs.value m) && (defs.value m <? 2 ^ 16)
  | Plain _ => false
  end.

Definition _FORMAT : string := "<H2x".

Definition _SIZE : Z :=
  match struct.calcsize _FORMAT with
  | Return n => n
  | Raise _ => 0
  end.

(** The constructor's argument defaults to [MessageType.INVALID]. *)
Definition __init__ (message_type : message_type_value) : t :=
  {| message_type := message_type |}.

Definition calcsize : Z := _SIZE.

Definition pack (self : t) (buffer : option bytearray) (offset : Z)
    (return_buffer : bool) : bytearray * outcome pack_result :=
  let buffer := buffer_or_new buffer calcsize in
  (let initial_offset := offset in
   v <- call (dot_value (message_type self)) ;;
   struct.pack_into _FORMAT offset [v] ;;
   let offset := offset + _SIZE in
   if return_buffer then ret RetBuffer
   else ret (RetCount (offset - initial_offset)))%py buffer.

Definition unpack (members : list Z) (self : t) (buffer : bytearray)
    (offset : Z) : t * outcome Z :=
  (let initial_offset := offset in
   fields <- call (struct.unpack_from _FORMAT buffer offset) ;;
   message_type <-
     match fields with
     | f0 :: _ => ret f0
     | [] => raise IndexError
     end ;;
   let offset := offset + _SIZE in
   m <- call (defs.MessageType members message_type) ;;
   put {| message_type := Member m |} ;;
   ret (offset - initial_offset))%py self.

End MessageRequest.

(** ** [ResetRequest] *)

Module ResetRequest.

Definition RESTART_NAVIGATION_ENGINE : Z := 0x00000001.
Definition RESET_CORRECTIONS : Z := 0x00000002.
Definition RESET_POSITION_DATA : Z := 0x00000100.
Definition RESET_EPHEMERIS : Z := 0x00000200.
Definition RESET_NAVIGATION_ENGINE_DATA : Z := 0x00001000.
Definition RESET_CALIBRATION_DATA : Z := 0x00002000.
Definition RESET_CONFIG : Z := 0x00100000.
Definition HOT_START : Z := 0x000000FF.
Definition WARM_START : Z := 0x000001FF.
Definition COLD_START : Z := 0x00000FFF.
Definition FACTORY_RESET : Z := 0x00FFFFFF.

Record t : Set := { reset_mask : Z }.

(** The masks the format ['<I'] can hold. *)
Definition valid (x : t) : bool :=
  (0 <=? reset_mask x) && (reset_mask x <? 2 ^ 32).

Definition _FORMAT : string := "<I".

Definition _SIZE : Z :=
  match struct.calcsize _FORMAT with
  | Return n => n
  | Raise _ => 0
  end.

Definition __init__ : t := {| reset_mask := 0 |}.

Definition calcsize : Z := _SIZE.

Definition pack (self : t) (buffer : option bytearray) (offset : Z)
    (return_buffer : bool) : bytearray * outcome pack_result :=
  let buffer := buffer_or_new buffer calcsize in
  (struct.pack_into _FORMAT offset [reset_mask self] ;;
   if return_buffer then ret RetBuffer
   else ret (RetCount calcsize))%py buffer.

Definition unpack (self : t) (buffer : bytearray) (offset : Z) : t * outcome Z :=
  (let initial_offset := offset in
   fields <- call (struct.unpack_from _FORMAT buffer offset) ;;
   match fields with
   | [f0] =>
       put {| reset_mask := f0 |} ;;
       let offset := offset + _SIZE in
       ret (offset - initial_offset)
   | _ => raise ValueError
   end)%py self.


End ResetRequest.

(** * Properties *)

(** ** Lists and windows *)

Section ListFacts.

Context {A : Type}.

Lemma firstn_app_exact (l1 l2 : list A) :
  firstn (length l1) (l1 ++ l2) = l1.
Proof.
  induction l1 as [|a l1 IH]; simpl.
  - reflexivity.
  - now rewrite IH.
Qed.

Lemma skipn_app_exact (l1 l2 : list A) :
  skipn (length l1) (l1 ++ l2) = l2.
Proof.
  induction l1 as [|a l1 IH]; simpl; auto.
Qed.

Lemma firstn_agree (n : nat) (l1 l2 : list A) :
  (forall i, (i < n)%nat -> nth_error l1 i = nth_error l2 i) ->
  firstn n l1 = firstn n l2.
Proof.
  revert l1 l2; induction n as [|n IH]; intros l1 l2 H; [reflexivity|].
  pose proof (H 0%nat ltac:(lia)) as H0.
  destruct l1 as [|a l1], l2 as [|b l2]; simpl in *; try congruence.
  inversion H0; subst; f_equal.
  apply IH; intros i Hi.
  apply (H (S i)); lia.
Qed.

Lemma nth_error_window_like (n s : nat) (l : list A) (i : nat) :
  (i < n)%nat -> nth_error (firstn n (skipn s l)) i = nth_error l (s + i).
Proof.
  intros Hi. rewrite nth_error_firstn.
  apply Nat.ltb_lt in Hi. rewrite Hi. apply nth_error_skipn.
Qed.

Lemma length_firstn_skipn (n s : nat) (l : list A) :
  (s + n <= length l)%nat -> length (firstn n (skipn s l)) = n.
Proof.
  intros H. rewrite length_firstn, length_skipn. lia.
Qed.

End ListFacts.

(** ** The [struct] layer *)

Section StructFacts.

Import struct.

Lemma resolve_offset_fits blen size offset :
  0 <= offset -> offset + size <= blen ->
  resolve_offset blen size offset = Some offset.
Proof.
  intros H0 H1; unfold resolve_offset.
  destruct (offset <? 0) eqn:E; [apply Z.ltb_lt in E; lia|].
  destruct (blen - offset <? size) eqn:E'; [apply Z.ltb_lt in E'; lia|].
  reflexivity.
Qed.

Lemma resolve_offset_inv blen size offset start :
  resolve_offset blen size offset = Some start ->
  0 <= start /\ start + size <= blen /\
  (0 <= offset /\ start = offset \/ offset < 0 /\ start = offset + blen).
Proof.
  unfold resolve_offset.
  destruct (offset <? 0) eqn:E0.
  - destruct (0 <? offset + size) eqn:E1; [discriminate|].
    destruct (offset + blen <? 0) eqn:E2; [discriminate|].
    destruct (blen - (offset + blen) <? size) eqn:E3; [discriminate|].
    intros [= <-].
    apply Z.ltb_lt in E0. apply Z.ltb_ge in E2, E3. lia.
  - destruct (blen - offset <? size) eqn:E1; [discriminate|].
    intros [= <-].
    apply Z.ltb_ge in E0, E1. lia.
Qed.

(** No offset, negative ones included, makes an access fit a buffer
    shorter than the access. *)
Lemma resolve_offset_short blen size offset :
  blen < size -> resolve_offset blen size offset = None.
Proof.
  intros H; unfold resolve_offset.
  destruct (offset <? 0) eqn:E0.
  - destruct (0 <? offset + size) eqn:E1; [reflexivity|].
    destruct (offset + blen <? 0) eqn:E2; [reflexivity|].
    apply Z.ltb_ge in E1, E2. lia.
  - destruct (blen - offset <? size) eqn:E1; [reflexivity|].
    apply Z.ltb_ge in E0, E1. lia.
Qed.

Lemma pack_internal_length cs vals :
  length (fst (pack_internal cs vals)) = size_of cs.
Proof.
  revert vals; induction cs as [|c cs IH]; intros vals; [reflexivity|].
  assert (Hfield : forall c', c' = c -> c' <> code_x ->
    length (fst (match vals with
                 | [] => (repeat Byte.x00 (size_of (c' :: cs)), Some StructError)
                 | v :: vals' =>
                     if in_range c' v then
                       let (w, e) := pack_internal cs vals' in
                       (le_split (code_size c') v ++ w, e)
                     else (repeat Byte.x00 (size_of (c' :: cs)), Some StructError)
                 end)) = size_of (c' :: cs)).
  { intros c' -> _. destruct vals as [|v vals'].
    - simpl fst. now rewrite repeat_length.
    - destruct (in_range c v).
      + specialize (IH vals'). destruct (pack_internal cs vals') as [w e].
        simpl in *. now rewrite length_app, length_le_split, IH.
      + simpl fst. now rewrite repeat_length. }
  destruct c; try (apply Hfield; [reflexivity|discriminate]).
  simpl. specialize (IH vals). destruct (pack_internal cs vals) as [w e].
  simpl in *. now rewrite IH.
Qed.

Lemma le_combine_le_split_in_range c v :
  in_range c v = true ->
  le_combine (le_split (code_size c) v) = v.
Proof.
  unfold in_range; intros H.
  apply andb_true_iff in H as [H0 H1].
  apply Z.leb_le in H0. apply Z.ltb_lt in H1.
  rewrite le_combine_split.
  apply Z.mod_small.
  replace (Z.of_nat (code_size c) * 8) with (8 * Z.of_nat (code_size c)) by lia.
  lia.
Qed.

(** What a successful [pack_internal] wrote, [unpack_internal] reads
    back. *)
Lemma unpack_pack_internal cs : forall vals w,
  pack_internal cs vals = (w, None) ->
  length vals = arity cs ->
  unpack_internal cs w = vals.
Proof.
  induction cs as [|c cs IH]; intros vals w Hp Hn.
  - simpl in *. destruct vals; [reflexivity|discriminate].
  - assert (Hfield : c <> code_x ->
      unpack_internal (c :: cs) w
      = le_combine (firstn (code_size c) w)
          :: unpack_internal cs (skipn (code_size c) w))
      by (destruct c; intros; [reflexivity..|congruence]).
    assert (Hpack : c <> code_x ->
      pack_internal (c :: cs) vals
      = match vals with
        | [] => (repeat Byte.x00 (size_of (c :: cs)), Some StructError)
        | v :: vals' =>
            if in_range c v then
              let (w, e) := pack_internal cs vals' in
              (le_split (code_size c) v ++ w, e)
            else (repeat Byte.x00 (size_of (c :: cs)), Some StructError)
        end)
      by (destruct c; intros; [reflexivity..|congruence]).
    assert (Harity : c <> code_x -> arity (c :: cs) = S (arity cs))
      by (destruct c; intros; [reflexivity..|congruence]).
    destruct (match c with code_x => true | _ => false end) eqn:Ec.
    + destruct c; try discriminate. simpl in *.
      destruct (pack_internal cs vals) as [w' e] eqn:E.
      inversion Hp; subst. simpl. now apply IH.
    + assert (Hc : c <> code_x) by (intros ->; discriminate).
      rewrite (Hpack Hc) in Hp. rewrite (Harity Hc) in Hn.
      rewrite (Hfield Hc).
      destruct vals as [|v vals']; [discriminate|].
      destruct (in_range c v) eqn:Er; [|discriminate].
      destruct (pack_internal cs vals') as [w' e] eqn:E.
      inversion Hp; subst.
      rewrite <- (length_le_split (code_size c) v) at 1 3.
      rewrite firstn_app_exact, skipn_app_exact.
      rewrite (le_combine_le_split_in_range _ _ Er).
      f_equal. apply IH; [exact E|]. simpl in Hn. lia.
Qed.

End StructFacts.

Section SpliceFacts.

Import struct.

Lemma length_splice b start w :
  0 <= start -> (Z.to_nat start + length w <= length b)%nat ->
  length (splice b start w) = length b.
Proof.
  intros H0 H1. unfold splice.
  rewrite !length_app, length_firstn, length_skipn. lia.
Qed.

Lemma nth_error_splice_outside b start w i :
  (Z.to_nat start + length w <= length b)%nat ->
  (i < Z.to_nat start \/ Z.to_nat start + length w <= i)%nat ->
  nth_error (splice b start w) i = nth_error b i.
Proof.
  intros Hfit Hi. unfold splice.
  assert (Hl : length (firstn (Z.to_nat start) b) = Z.to_nat start)
    by (rewrite length_firstn; lia).
  destruct Hi as [Hi|Hi].
  - rewrite nth_error_app1 by lia.
    rewrite nth_error_firstn.
    apply Nat.ltb_lt in Hi. now rewrite Hi.
  - rewrite nth_error_app2 by lia.
    rewrite nth_error_app2 by lia.
    rewrite nth_error_skipn. f_equal. lia.
Qed.

Lemma nth_error_splice_inside b start w j :
  (Z.to_nat start <= length b)%nat -> (j < length w)%nat ->
  nth_error (splice b start w) (Z.to_nat start + j) = nth_error w j.
Proof.
  intros Hfit Hj. unfold splice.
  assert (Hl : length (firstn (Z.to_nat start) b) = Z.to_nat start)
    by (rewrite length_firstn; lia).
  rewrite nth_error_app2 by lia.
  rewrite nth_error_app1 by lia.
  f_equal. lia.
Qed.

Lemma window_splice b start w :
  (Z.to_nat start <= length b)%nat ->
  window (splice b start w) start (length w) = w.
Proof.
  intros Hfit. unfold window, splice.
  assert (Hl : length (firstn (Z.to_nat start) b) = Z.to_nat start)
    by (rewrite length_firstn; lia).
  rewrite <- Hl at 1. rewrite skipn_app_exact.
  apply firstn_app_exact.
Qed.

Lemma byte_at_nat b (i : Z) :
  0 <= i -> byte_at b i = nth_error b (Z.to_nat i).
Proof.
  intros H. unfold byte_at.
  destruct (i <? 0) eqn:E; [apply Z.ltb_lt in E; lia|reflexivity].
Qed.

Lemma byte_at_splice_outside b start w i :
  0 <= start -> start + Z.of_nat (length w) <= len b ->
  i < start \/ start + Z.of_nat (length w) <= i ->
  byte_at (splice b start w) i = byte_at b i.
Proof.
  unfold len. intros H0 Hfit Hi. unfold byte_at.
  destruct (Z.ltb_spec i 0); [reflexivity|].
  apply nth_error_splice_outside; lia.
Qed.

Lemma byte_at_splice_inside b start w (j : nat) :
  0 <= start -> start <= len b -> (j < length w)%nat ->
  byte_at (splice b start w) (start + Z.of_nat j) = nth_error w j.
Proof.
  unfold len. intros H0 Hfit Hj.
  rewrite byte_at_nat by lia.
  replace (Z.to_nat (start + Z.of_nat j)) with (Z.to_nat start + j)%nat by lia.
  apply nth_error_splice_inside; lia.
Qed.

Lemma window_agree b1 b2 start n :
  0 <= start ->
  (forall i, (i < n)%nat ->
     byte_at b1 (start + Z.of_nat i) = byte_at b2 (start + Z.of_nat i)) ->
  window b1 start n = window b2 start n.
Proof.
  intros H0 H. unfold window.
  apply firstn_agree. intros i Hi.
  rewrite !nth_error_skipn.
  specialize (H i Hi). rewrite !byte_at_nat in H by lia.
  replace (Z.to_nat (start + Z.of_nat i)) with (Z.to_nat start + i)%nat in H by lia.
  exact H.
Qed.

End SpliceFacts.

Section PackUnpackFacts.

Import struct.

(** Pad bytes do not reach the unpacked values. *)
Lemma unpack_internal_pad_agree cs : forall w1 w2,
  (forall i, (i < size_of cs)%nat -> pad_at cs i = false ->
     nth_error w1 i = nth_error w2 i) ->
  unpack_internal cs w1 = unpack_internal cs w2.
Proof.
  induction cs as [|c cs IH]; intros w1 w2 H; [reflexivity|].
  assert (Hfield : forall k, c <> code_x -> code_size c = k ->
    le_combine (firstn k w1) :: unpack_internal cs (skipn k w1)
    = le_combine (firstn k w2) :: unpack_internal cs (skipn k w2)).
  { intros k Hc Hk. f_equal.
    - f_equal. apply firstn_agree. intros i Hi.
      apply H; [cbn [size_of]; lia|].
      destruct c; try congruence; cbn [pad_at];
        rewrite Hk; destruct (Nat.ltb_spec i k); auto; lia.
    - apply IH. intros i Hi Hp. rewrite !nth_error_skipn.
      apply H; [cbn [size_of]; lia|].
      destruct c; try congruence; cbn [pad_at]; rewrite Hk;
        (destruct (Nat.ltb_spec (k + i) k); [lia|]);
        (replace (k + i - k)%nat with i by lia); exact Hp. }
  destruct c; cbn [unpack_internal];
    try (apply Hfield; [discriminate|reflexivity]).
  apply IH. intros i Hi Hp. rewrite !nth_error_skipn.
  apply (H (S i)); [cbn [size_of code_size]; lia|exact Hp].
Qed.

Lemma pack_into_eq fmt cs offset vals b :
  parse_format fmt = Some cs ->
  length vals = arity cs ->
  pack_into fmt offset vals b =
    match resolve_offset (len b) (Z.of_nat (size_of cs)) offset with
    | None => (b, Raise StructError)
    | Some start =>
        (splice b start (fst (pack_internal cs vals)),
         match snd (pack_internal cs vals) with
         | None => Return tt
         | Some x => Raise x
         end)
    end.
Proof.
  intros Hp Hn. unfold pack_into. rewrite Hp, Hn, Nat.eqb_refl. simpl negb.
  destruct (resolve_offset _ _ _); [|reflexivity].
  now destruct (pack_internal cs vals).
Qed.

Lemma unpack_from_eq fmt cs b offset :
  parse_format fmt = Some cs ->
  unpack_from fmt b offset =
    match resolve_offset (len b) (Z.of_nat (size_of cs)) offset with
    | None => Raise StructError
    | Some start => Return (unpack_internal cs (window b start (size_of cs)))
    end.
Proof.
  intros Hp. unfold unpack_from. now rewrite Hp.
Qed.

(** A buffer too short for the format cannot be unpacked, at any
    offset. *)
Lemma unpack_from_short fmt cs b offset :
  parse_format fmt = Some cs ->
  len b < Z.of_nat (size_of cs) ->
  unpack_from fmt b offset = Raise StructError.
Proof.
  intros Hp Hlen. rewrite (unpack_from_eq _ _ _ _ Hp).
  now rewrite resolve_offset_short.
Qed.

(** Two buffers of one length that agree outside the pad bytes of the
    window unpack alike. *)
Lemma unpack_from_pad_agree fmt cs b1 b2 offset :
  parse_format fmt = Some cs ->
  length b1 = length b2 ->
  0 <= offset ->
  (forall i, (i < size_of cs)%nat -> pad_at cs i = false ->
     byte_at b1 (offset + Z.of_nat i) = byte_at b2 (offset + Z.of_nat i)) ->
  unpack_from fmt b1 offset = unpack_from fmt b2 offset.
Proof.
  intros Hp Hlen H0 H.
  rewrite !(unpack_from_eq _ _ _ _ Hp). unfold len. rewrite Hlen.
  destruct (resolve_offset _ _ _) as [start|] eqn:E; [|reflexivity].
  apply resolve_offset_inv in E as (Hs & Hfit & [[_ ->]|[Hneg _]]); [|lia].
  f_equal. apply unpack_internal_pad_agree. intros i Hi Hpad.
  unfold window. rewrite !nth_error_window_like by exact Hi.
  specialize (H i Hi Hpad). rewrite !byte_at_nat in H by lia.
  replace (Z.to_nat (offset + Z.of_nat i)) with (Z.to_nat offset + i)%nat in H by lia.
  exact H.
Qed.

(** Whatever the packing loop wrote into its window, the buffer keeps its
    length and every byte outside the window. *)
Lemma splice_pack_internal_frame b offset cs vals :
  0 <= offset -> offset + Z.of_nat (size_of cs) <= len b ->
  length (splice b offset (fst (pack_internal cs vals))) = length b /\
  forall i, i < offset \/ offset + Z.of_nat (size_of cs) <= i ->
    byte_at (splice b offset (fst (pack_internal cs vals))) i = byte_at b i.
Proof.
  intros H0 Hfit.
  pose proof (pack_internal_length cs vals) as Hw.
  unfold len in Hfit. split.
  - apply length_splice; lia.
  - intros i Hi. apply byte_at_splice_outside; unfold len; lia.
Qed.

End PackUnpackFacts.

(** ** [CommandResponseMessage] *)

Section CommandResponseFacts.

Import struct.
Import CommandResponseMessage.

Lemma Response_call_raises v e :
  Response_call v = Raise e -> e = ValueError.
Proof.
  unfold Response_call. intros H.
  repeat match type of H with
         | context [match ?x with _ => _ end] => destruct x
         end; congruence.
Qed.

Lemma Response_call_member v r :
  Response_call v = Return r -> Response_value r = v /\ 0 <= v <= 5.
Proof.
  unfold Response_call. intros H.
  repeat match type of H with
         | context [match ?x with _ => _ end] => destruct x
         end; try discriminate; injection H as <-; simpl; lia.
Qed.

Lemma Response_call_value r :
  Response_call (Response_value r) = Return r.
Proof. now destruct r. Qed.

Lemma Response_call_named v :
  0 <= v <= 5 -> exists r, Response_call v = Return r.
Proof.
  intros H.
  assert (Hv : v = 0 \/ v = 1 \/ v = 2 \/ v = 3 \/ v = 4 \/ v = 5) by lia.
  destruct Hv as [->|[->|[->|[->|[->| ->]]]]]; eexists; reflexivity.
Qed.

(** What [unpack] makes of the response byte: the member with that value,
    or the plain integer when there is none. *)
Lemma Response_call_total v :
  (0 <= v <= 5 /\ exists r, Response_call v = Return r /\ Response_value r = v)
  \/ (~ 0 <= v <= 5 /\ Response_call v = Raise ValueError).
Proof.
  destruct (Response_call v) as [r|e] eqn:E.
  - left. apply Response_call_member in E as H. destruct H. eauto.
  - right. rewrite (Response_call_raises _ _ E). split; [|reflexivity].
    intros H. apply Response_call_named in H as [r Hr]. congruence.
Qed.

Lemma CommandResponse_unpack_eq self b offset :
  unpack self b offset =
    match unpack_from _FORMAT b offset with
    | Raise e => (self, Raise e)
    | Return [f0; f1] =>
        ({| source_sequence_num := f0;
            response :=
              match Response_call f1 with
              | Return r => Member r
              | Raise _ => Plain f1
              end |},
         Return (8 - offset))
    | Return _ => (self, Raise ValueError)
    end.
Proof.
  unfold unpack, bind, call, put, get, raise, ret, try_except.
  destruct (unpack_from _FORMAT b offset) as [fields|e]; [|reflexivity].
  destruct fields as [|f0 [|f1 [|f2 fields]]]; try reflexivity.
  cbn [response source_sequence_num int].
  destruct (Response_call f1) as [r|e] eqn:E; [reflexivity|].
  now rewrite (Response_call_raises _ _ E).
Qed.

Lemma CommandResponse_pack_eq self buffer offset return_buffer :
  pack self buffer offset return_buffer =
    let b := buffer_or_new buffer 8 in
    let vals := [source_sequence_num self; int (response self)] in
    let cs := [code_I; code_B; code_x; code_x; code_x] in
    match resolve_offset (len b) 8 offset with
    | None => (b, Raise StructError)
    | Some start =>
        (splice b start (fst (pack_internal cs vals)),
         match snd (pack_internal cs vals) with
         | None =>
             Return (if return_buffer then RetBuffer
                     else RetCount (8 - offset))
         | Some x => Raise x
         end)
    end.
Proof.
  unfold pack, bind.
  rewrite (pack_into_eq _FORMAT [code_I; code_B; code_x; code_x; code_x])
    by reflexivity.
  change calcsize with 8. change _SIZE with 8.
  cbv zeta. change (Z.of_nat (size_of _)) with 8.
  destruct (resolve_offset _ _ _); [|reflexivity].
  destruct (snd (pack_internal _ _)); [reflexivity|].
  now destruct return_buffer.
Qed.

Lemma in_range_of_bounds c v n :
  2 ^ (8 * Z.of_nat (code_size c)) = n ->
  (0 <=? v) && (v <? n) = true -> in_range c v = true.
Proof. unfold in_range. now intros ->. Qed.

Lemma CommandResponse_pack_internal_valid self :
  valid self = true ->
  pack_internal [code_I; code_B; code_x; code_x; code_x]
    [source_sequence_num self; int (response self)]
  = (le_split 4 (source_sequence_num self)
       ++ le_split 1 (int (response self))
       ++ [Byte.x00; Byte.x00; Byte.x00], None).
Proof.
  unfold valid. intros H.
  apply andb_true_iff in H as [H H3]. apply andb_true_iff in H as [H H2].
  cbn [pack_internal].
  rewrite (in_range_of_bounds code_I _ (2 ^ 32)) by (auto).
  rewrite (in_range_of_bounds code_B _ (2 ^ 8)) by (auto; now rewrite H2, H3).
  reflexivity.
Qed.

End CommandResponseFacts.

Section CommandResponseCodec.

Import struct.
Import CommandResponseMessage.

Lemma firstn_1_skipn {A} (l : list A) n x :
  nth_error l n = Some x -> firstn 1 (skipn n l) = [x].
Proof.
  revert l; induction n as [|n IH]; intros [|a l] H; try discriminate.
  - now injection H as ->.
  - now apply IH.
Qed.

(** The two values [unpack_from] yields on a buffer that holds the
    message at [offset]. *)
Lemma CommandResponse_unpack_from buffer offset b :
  0 <= offset -> offset + 8 <= len buffer ->
  byte_at buffer (offset + 4) = Some b ->
  unpack_from _FORMAT buffer offset
  = Return [le_combine (window buffer offset 4); byte.unsigned b].
Proof.
  intros H0 Hfit Hb.
  rewrite (unpack_from_eq _FORMAT [code_I; code_B; code_x; code_x; code_x])
    by reflexivity.
  change (Z.of_nat (size_of _)) with 8.
  rewrite resolve_offset_fits by assumption.
  cbn [unpack_internal code_size size_of Nat.add].
  assert (Hw : nth_error (window buffer offset 8) 4 = Some b).
  { unfold window. rewrite nth_error_window_like by lia.
    rewrite byte_at_nat in Hb by lia. rewrite <- Hb. f_equal. lia. }
  rewrite (firstn_1_skipn _ _ _ Hw), le_combine_1.
  unfold window. rewrite firstn_firstn. reflexivity.
Qed.

Lemma window_bound buffer offset n :
  0 <= le_combine (window buffer offset n) < 2 ^ (8 * Z.of_nat n).
Proof.
  pose proof (le_combine_bound (window buffer offset n)) as H.
  assert (Hl : (length (window buffer offset n) <= n)%nat)
    by (unfold window; rewrite length_firstn; lia).
  assert (2 ^ (8 * Z.of_nat (length (window buffer offset n)))
          <= 2 ^ (8 * Z.of_nat n)) by (apply Z.pow_le_mono_r; lia).
  lia.
Qed.

(** [pack] of a valid instance into a buffer the message fits in. *)
Lemma CommandResponse_pack_valid self buffer offset return_buffer :
  valid self = true ->
  0 <= offset -> offset + 8 <= len (buffer_or_new buffer 8) ->
  pack self buffer offset return_buffer
  = (splice (buffer_or_new buffer 8) offset
       (le_split 4 (source_sequence_num self)
          ++ le_split 1 (int (response self))
          ++ [Byte.x00; Byte.x00; Byte.x00]),
     Return (if return_buffer then RetBuffer else RetCount (8 - offset))).
Proof.
  intros Hv H0 Hfit. rewrite CommandResponse_pack_eq. cbv zeta.
  rewrite resolve_offset_fits by assumption.
  now rewrite (CommandResponse_pack_internal_valid _ Hv).
Qed.

End CommandResponseCodec.

Section CommandResponseClaims.

Import struct.
Import CommandResponseMessage.

(** C6. Packing a command response with sequence number 42 and response
    [VALUE_ERROR] yields exactly the eight bytes 2A 00 00 00 03 00 00 00,
    and unpacking those bytes, into any instance, yields sequence number 42
    and the member [VALUE_ERROR]. *)
Theorem CommandResponse_scenario :
  pack {| source_sequence_num := 42; response := Member VALUE_ERROR |}
       None 0 true
  = ([Byte.x2a; Byte.x00; Byte.x00; Byte.x00;
      Byte.x03; Byte.x00; Byte.x00; Byte.x00], Return RetBuffer)
  /\ forall self,
       unpack self [Byte.x2a; Byte.x00; Byte.x00; Byte.x00;
                    Byte.x03; Byte.x00; Byte.x00; Byte.x00] 0
       = ({| source_sequence_num := 42; response := Member VALUE_ERROR |},
          Return 8).
Proof.
  split; [reflexivity|intros self; reflexivity].
Qed.

(** C10. On a buffer long enough, [unpack] succeeds whatever byte sits at
    payload offset 4; afterwards [response] is a member of [Response]
    exactly when that byte is one of 0..5 and a plain integer otherwise,
    and [int(self.response)] is the byte in both cases. *)
Theorem CommandResponse_unpack_total (self : t) (buffer : bytearray)
    (offset : Z) (b : byte) :
  0 <= offset -> offset + 8 <= len buffer ->
  byte_at buffer (offset + 4) = Some b ->
  exists self' n,
    unpack self buffer offset = (self', Return n)
    /\ int (response self') = byte.unsigned b
    /\ is_member (response self')
       = (0 <=? byte.unsigned b) && (byte.unsigned b <=? 5).
Proof.
  intros H0 Hfit Hb.
  rewrite CommandResponse_unpack_eq,
    (CommandResponse_unpack_from _ _ _ H0 Hfit Hb).
  do 2 eexists. split; [reflexivity|].
  cbn [response].
  destruct (Response_call_total (byte.unsigned b))
    as [[Hr (r & -> & Hv)]|[Hr ->]]; cbn [int is_member].
  - split; [exact Hv|]. symmetry.
    apply andb_true_iff; split; apply Z.leb_le; lia.
  - split; [reflexivity|]. symmetry.
    apply andb_false_iff.
    destruct (Z.leb_spec 0 (byte.unsigned b)); [right|left; reflexivity].
    apply Z.leb_gt. lia.
Qed.

Lemma CommandResponse_unpack_total_witness :
  exists self' n,
    unpack __init__ (repeat Byte.xc8 8) 0 = (self', Return n)
    /\ int (response self') = 200
    /\ is_member (response self') = false.
Proof.
  apply (CommandResponse_unpack_total __init__ (repeat Byte.xc8 8) 0 Byte.xc8).
  - lia.
  - vm_compute. discriminate.
  - reflexivity.
Defined.

(** C4. Unpacking a buffer whose response byte is 200 succeeds and leaves
    the plain integer 200 in [response]; packing the instance again, into a
    fresh buffer or into any buffer it fits in, succeeds and puts the byte
    200 at payload offset 4. *)
Theorem CommandResponse_unknown_response_kept (self : t)
    (buffer : bytearray) (offset : Z)
    (out : option bytearray) (pos : Z) (return_buffer : bool) :
  0 <= offset -> offset + 8 <= len buffer ->
  byte_at buffer (offset + 4) = Some Byte.xc8 ->
  0 <= pos -> pos + 8 <= len (buffer_or_new out 8) ->
  exists self' n r,
    unpack self buffer offset = (self', Return n)
    /\ response self' = Plain 200
    /\ int (response self') = 200
    /\ snd (pack self' out pos return_buffer) = Return r
    /\ byte_at (fst (pack self' out pos return_buffer)) (pos + 4)
       = Some Byte.xc8.
Proof.
  intros H0 Hfit Hb Hpos Hout.
  rewrite CommandResponse_unpack_eq,
    (CommandResponse_unpack_from _ _ _ H0 Hfit Hb).
  change (byte.unsigned Byte.xc8) with 200.
  change (Response_call 200) with (@Raise Response ValueError).
  do 3 eexists. split; [reflexivity|]. cbn [response int].
  do 2 (split; [reflexivity|]).
  rewrite CommandResponse_pack_valid; try assumption.
  - split; [reflexivity|]. cbn [fst source_sequence_num response int].
    change (pos + 4) with (pos + Z.of_nat 4).
    rewrite byte_at_splice_inside;
      [|lia|lia|rewrite length_app, length_le_split; simpl; lia].
    rewrite nth_error_app2 by (rewrite length_le_split; lia).
    rewrite length_le_split. reflexivity.
  - unfold valid. cbn [source_sequence_num response int].
    pose proof (window_bound buffer offset 4) as Hw.
    change (2 ^ (8 * Z.of_nat 4)) with (2 ^ 32) in Hw.
    apply andb_true_iff; split; [|reflexivity].
    apply andb_true_iff; split; [|reflexivity].
    apply andb_true_iff; split; [apply Z.leb_le|apply Z.ltb_lt]; lia.
Qed.

Lemma CommandResponse_unknown_response_kept_witness :
  exists self' n r,
    unpack __init__ (repeat Byte.xc8 8) 0 = (self', Return n)
    /\ response self' = Plain 200
    /\ int (response self') = 200
    /\ snd (pack self' None 0 true) = Return r
    /\ byte_at (fst (pack self' None 0 true)) (0 + 4) = Some Byte.xc8.
Proof.
  apply (CommandResponse_unknown_response_kept __init__ (repeat Byte.xc8 8) 0
           None 0 true).
  - lia.
  - vm_compute. discriminate.
  - reflexivity.
  - lia.
  - vm_compute. discriminate.
Defined.

End CommandResponseClaims.

(** ** [MessageRequest] *)

Section MessageRequestFacts.

Import struct.
Import MessageRequest.

Variable members : list Z.

Lemma MessageType_raises v e :
  defs.MessageType members v = Raise e -> e = ValueError.
Proof.
  unfold defs.MessageType. destruct (existsb _ _); congruence.
Qed.

Lemma MessageType_registered v :
  existsb (Z.eqb v) members = true ->
  defs.MessageType members v = Return {| defs.value := v |}.
Proof. unfold defs.MessageType. now intros ->. Qed.


Lemma MessageRequest_unpack_eq self b offset :
  unpack members self b offset =
    match unpack_from _FORMAT b offset with
    | Raise e => (self, Raise e)
    | Return [] => (self, Raise IndexError)
    | Return (f0 :: _) =>
        match defs.MessageType members f0 with
        | Return m => ({| message_type := Member m |}, Return 4)
        | Raise e => (self, Raise e)
        end
    end.
Proof.
  unfold unpack, bind, call, put, raise, ret.
  destruct (unpack_from _FORMAT b offset) as [fields|e]; [|reflexivity].
  destruct fields as [|f0 fields]; [reflexivity|].
  destruct (defs.MessageType members f0); [|reflexivity].
  change _SIZE with 4. do 2 f_equal. lia.
Qed.


Lemma MessageRequest_pack_eq self buffer offset return_buffer :
  pack self buffer offset return_buffer =
    let b := buffer_or_new buffer 4 in
    match message_type self with
    | Plain _ => (b, Raise AttributeError)
    | Member m =>
        match resolve_offset (len b) 4 offset with
        | None => (b, Raise StructError)
        | Some start =>
            (splice b start
               (fst (pack_internal [code_H; code_x; code_x] [defs.value m])),
             match snd (pack_internal [code_H; code_x; code_x] [defs.value m]) with
             | None =>
                 Return (if return_buffer then RetBuffer else RetCount 4)
             | Some x => Raise x
             end)
        end
    end.
Proof.
  unfold pack, bind, call, dot_value.
  change calcsize with 4. change _SIZE with 4. cbv zeta.
  destruct (message_type self) as [m|n]; [|reflexivity].
  rewrite (pack_into_eq _FORMAT [code_H; code_x; code_x]) by reflexivity.
  change (Z.of_nat (size_of _)) with 4.
  destruct (resolve_offset _ _ _); [|reflexivity].
  destruct (snd (pack_internal _ _)); [reflexivity|].
  destruct return_buffer; unfold ret; do 3 f_equal. lia.
Qed.

Lemma MessageRequest_pack_valid self buffer offset return_buffer m :
  message_type self = Member m ->
  0 <= defs.value m < 2 ^ 16 ->
  0 <= offset -> offset + 4 <= len (buffer_or_new buffer 4) ->
  pack self buffer offset return_buffer
  = (splice (buffer_or_new buffer 4) offset
       (le_split 2 (defs.value m) ++ [Byte.x00; Byte.x00]),
     Return (if return_buffer then RetBuffer else RetCount 4)).
Proof.
  intros Hm Hv H0 Hfit. rewrite MessageRequest_pack_eq. cbv zeta.
  rewrite Hm, resolve_offset_fits by assumption.
  cbn [pack_internal].
  rewrite (in_range_of_bounds code_H _ (2 ^ 16)); [reflexivity|reflexivity|].
  apply andb_true_iff; split; [apply Z.leb_le|apply Z.ltb_lt]; lia.
Qed.

End MessageRequestFacts.

(** ** [ResetRequest] *)

Section ResetRequestFacts.

Import struct.
Import ResetRequest.

Lemma ResetRequest_unpack_eq self b offset :
  unpack self b offset =
    match unpack_from _FORMAT b offset with
    | Raise e => (self, Raise e)
    | Return [f0] => ({| reset_mask := f0 |}, Return 4)
    | Return _ => (self, Raise ValueError)
    end.
Proof.
  unfold unpack, bind, call, put, raise, ret.
  destruct (unpack_from _FORMAT b offset) as [fields|e]; [|reflexivity].
  destruct fields as [|f0 [|f1 fields]]; try reflexivity.
  change _SIZE with 4. do 2 f_equal. lia.
Qed.

Lemma ResetRequest_unpack_from buffer offset :
  0 <= offset -> offset + 4 <= len buffer ->
  unpack_from _FORMAT buffer offset
  = Return [le_combine (window buffer offset 4)].
Proof.
  intros H0 Hfit.
  rewrite (unpack_from_eq _FORMAT [code_I]) by reflexivity.
  change (Z.of_nat (size_of _)) with 4.
  rewrite resolve_offset_fits by assumption.
  cbn [unpack_internal code_size size_of Nat.add].
  unfold window. rewrite firstn_firstn. reflexivity.
Qed.

Lemma ResetRequest_pack_eq self buffer offset return_buffer :
  pack self buffer offset return_buffer =
    let b := buffer_or_new buffer 4 in
    match resolve_offset (len b) 4 offset with
    | None => (b, Raise StructError)
    | Some start =>
        (splice b start (fst (pack_internal [code_I] [reset_mask self])),
         match snd (pack_internal [code_I] [reset_mask self]) with
         | None => Return (if return_buffer then RetBuffer else RetCount 4)
         | Some x => Raise x
         end)
    end.
Proof.
  unfold pack, bind.
  change calcsize with 4. cbv zeta.
  rewrite (pack_into_eq _FORMAT [code_I]) by reflexivity.
  change (Z.of_nat (size_of _)) with 4.
  destruct (resolve_offset _ _ _); [|reflexivity].
  destruct (snd (pack_internal _ _)); [reflexivity|].
  now destruct return_buffer.
Qed.

Lemma ResetRequest_pack_valid self buffer offset return_buffer :
  valid self = true ->
  0 <= offset -> offset + 4 <= len (buffer_or_new buffer 4) ->
  pack self buffer offset return_buffer
  = (splice (buffer_or_new buffer 4) offset
       (le_split 4 (reset_mask self) ++ []),
     Return (if return_buffer then RetBuffer else RetCount 4)).
Proof.
  intros Hv H0 Hfit. rewrite ResetRequest_pack_eq. cbv zeta.
  rewrite resolve_offset_fits by assumption.
  cbn [pack_internal].
  now rewrite (in_range_of_bounds code_I _ (2 ^ 32)).
Qed.

End ResetRequestFacts.

(** ** Round trip *)

Section RoundTrip.

Import struct.

(** Unpacking, at the same offset, the buffer a successful [pack_into]
    leaves gives the packed values back. *)
Lemma unpack_from_splice fmt cs b offset vals w :
  parse_format fmt = Some cs ->
  length vals = arity cs ->
  0 <= offset -> offset + Z.of_nat (size_of cs) <= len b ->
  pack_internal cs vals = (w, None) ->
  unpack_from fmt (splice b offset w) offset = Return vals.
Proof.
  intros Hp Hn H0 Hfit Hw.
  pose proof (pack_internal_length cs vals) as Hl. rewrite Hw in Hl.
  simpl in Hl. unfold len in Hfit.
  rewrite (unpack_from_eq _ _ _ _ Hp).
  rewrite resolve_offset_fits;
    [|assumption|unfold len; rewrite length_splice; lia].
  rewrite <- Hl. rewrite window_splice by lia.
  now rewrite (unpack_pack_internal _ _ _ Hw Hn).
Qed.

Lemma CommandResponse_roundtrip (x fresh : CommandResponseMessage.t)
    (out : option bytearray) (pos : Z) :
  CommandResponseMessage.valid x = true ->
  0 <= pos -> pos + 8 <= len (buffer_or_new out 8) ->
  exists buf y n,
    CommandResponseMessage.pack x out pos true = (buf, Return RetBuffer)
    /\ CommandResponseMessage.unpack fresh buf pos = (y, Return n)
    /\ CommandResponseMessage.source_sequence_num y
       = CommandResponseMessage.source_sequence_num x
    /\ CommandResponseMessage.int (CommandResponseMessage.response y)
       = CommandResponseMessage.int (CommandResponseMessage.response x)
    /\ (CommandResponseMessage.canonical (CommandResponseMessage.response x)
        = true -> y = x).
Proof.
  intros Hv H0 Hfit.
  rewrite CommandResponse_pack_valid by assumption.
  do 3 eexists. split; [reflexivity|].
  rewrite CommandResponse_unpack_eq.
  rewrite (unpack_from_splice CommandResponseMessage._FORMAT
             [code_I; code_B; code_x; code_x; code_x] _ _
             [CommandResponseMessage.source_sequence_num x;
              CommandResponseMessage.int (CommandResponseMessage.response x)]);
    try assumption; try reflexivity;
    [|now apply CommandResponse_pack_internal_valid].
  split; [reflexivity|].
  cbn [CommandResponseMessage.source_sequence_num
       CommandResponseMessage.response].
  split; [reflexivity|].
  destruct x as [s [r|v]];
    cbn [CommandResponseMessage.response CommandResponseMessage.int
         CommandResponseMessage.canonical].
  - rewrite Response_call_value. split; [reflexivity|reflexivity].
  - destruct (CommandResponseMessage.Response_call v) as [r|e] eqn:E.
    + apply Response_call_member in E as [E _].
      split; [exact E|discriminate].
    + split; reflexivity.
Qed.

Lemma MessageRequest_roundtrip (members : list Z)
    (x fresh : MessageRequest.t) (out : option bytearray) (pos : Z) :
  MessageRequest.valid members x = true ->
  0 <= pos -> pos + 4 <= len (buffer_or_new out 4) ->
  exists buf,
    MessageRequest.pack x out pos true = (buf, Return RetBuffer)
    /\ MessageRequest.unpack members fresh buf pos = (x, Return 4).
Proof.
  unfold MessageRequest.valid. intros Hv H0 Hfit.
  destruct x as [[[v]|n]]; cbn [MessageRequest.message_type defs.value] in Hv;
    [|discriminate].
  apply andb_true_iff in Hv as [Hv H2]. apply andb_true_iff in Hv as [Hv H1].
  apply Z.leb_le in H1. apply Z.ltb_lt in H2.
  rewrite (MessageRequest_pack_valid _ _ _ _ {| defs.value := v |});
    try assumption; try reflexivity; [|cbn [defs.value]; lia].
  eexists. split; [reflexivity|].
  rewrite MessageRequest_unpack_eq.
  rewrite (unpack_from_splice MessageRequest._FORMAT
             [code_H; code_x; code_x] _ _ [v]);
    try assumption; try reflexivity.
  - now rewrite MessageType_registered.
  - cbn [pack_internal defs.value].
    rewrite (in_range_of_bounds code_H _ (2 ^ 16)); [reflexivity|reflexivity|].
    apply andb_true_iff; split; [apply Z.leb_le|apply Z.ltb_lt]; lia.
Qed.

Lemma ResetRequest_roundtrip (x fresh : ResetRequest.t)
    (out : option bytearray) (pos : Z) :
  ResetRequest.valid x = true ->
  0 <= pos -> pos + 4 <= len (buffer_or_new out 4) ->
  exists buf,
    ResetRequest.pack x out pos true = (buf, Return RetBuffer)
    /\ ResetRequest.unpack fresh buf pos = (x, Return 4).
Proof.
  intros Hv H0 Hfit.
  rewrite ResetRequest_pack_valid by assumption.
  eexists. split; [reflexivity|].
  rewrite ResetRequest_unpack_eq.
  rewrite (unpack_from_splice ResetRequest._FORMAT [code_I] _ _
             [ResetRequest.reset_mask x]);
    try assumption; try reflexivity.
  - now destruct x.
  - cbn [pack_internal].
    now rewrite (in_range_of_bounds code_I _ (2 ^ 32)).
Qed.

End RoundTrip.

(** C1. For each of the three messages and every valid assignment of its
    attributes, [pack] followed by [unpack] of the produced buffer, into any
    instance (a fresh one included) and at the offset packed at, succeeds
    and gives attributes equal to the original's. A [response] compares as
    Python compares it, by integer value; an instance whose [response] is a
    member, or a plain integer no member has, comes back identical. *)
Theorem pack_unpack_roundtrip :
  (forall (x fresh : CommandResponseMessage.t) out pos,
     CommandResponseMessage.valid x = true ->
     0 <= pos -> pos + 8 <= len (buffer_or_new out 8) ->
     exists buf y n,
       CommandResponseMessage.pack x out pos true = (buf, Return RetBuffer)
       /\ CommandResponseMessage.unpack fresh buf pos = (y, Return n)
       /\ CommandResponseMessage.source_sequence_num y
          = CommandResponseMessage.source_sequence_num x
       /\ CommandResponseMessage.int (CommandResponseMessage.response y)
          = CommandResponseMessage.int (CommandResponseMessage.response x)
       /\ (CommandResponseMessage.canonical (CommandResponseMessage.response x)
           = true -> y = x))
  /\ (forall members (x fresh : MessageRequest.t) out pos,
        MessageRequest.valid members x = true ->
        0 <= pos -> pos + 4 <= len (buffer_or_new out 4) ->
        exists buf,
          MessageRequest.pack x out pos true = (buf, Return RetBuffer)
          /\ MessageRequest.unpack members fresh buf pos = (x, Return 4))
  /\ (forall (x fresh : ResetRequest.t) out pos,
        ResetRequest.valid x = true ->
        0 <= pos -> pos + 4 <= len (buffer_or_new out 4) ->
        exists buf,
          ResetRequest.pack x out pos true = (buf, Return RetBuffer)
          /\ ResetRequest.unpack fresh buf pos = (x, Return 4)).
Proof.
  split; [|split].
  - intros; now apply CommandResponse_roundtrip.
  - intros; now apply MessageRequest_roundtrip.
  - intros; now apply ResetRequest_roundtrip.
Qed.

Lemma pack_unpack_roundtrip_witness :
  (exists buf y n,
     CommandResponseMessage.pack
       {| CommandResponseMessage.source_sequence_num := 42;
          CommandResponseMessage.response :=
            CommandResponseMessage.Member CommandResponseMessage.VALUE_ERROR |}
       None 0 true = (buf, Return RetBuffer)
     /\ CommandResponseMessage.unpack CommandResponseMessage.__init__ buf 0
        = (y, Return n)
     /\ CommandResponseMessage.source_sequence_num y = 42
     /\ CommandResponseMessage.int (CommandResponseMessage.response y) = 3
     /\ y = {| CommandResponseMessage.source_sequence_num := 42;
               CommandResponseMessage.response :=
                 CommandResponseMessage.Member
                   CommandResponseMessage.VALUE_ERROR |})
  /\ (exists buf,
        MessageRequest.pack
          {| MessageRequest.message_type :=
               MessageRequest.Member {| defs.value := 13000 |} |}
          None 0 true = (buf, Return RetBuffer)
        /\ MessageRequest.unpack [0; 13000; 13001; 13002]
             (MessageRequest.__init__
                (MessageRequest.Member {| defs.value := 0 |})) buf 0
           = ({| MessageRequest.message_type :=
                   MessageRequest.Member {| defs.value := 13000 |} |},
              Return 4))
  /\ (exists buf,
        ResetRequest.pack
          {| ResetRequest.reset_mask := ResetRequest.WARM_START |}
          None 0 true = (buf, Return RetBuffer)
        /\ ResetRequest.unpack ResetRequest.__init__ buf 0
           = ({| ResetRequest.reset_mask := ResetRequest.WARM_START |},
              Return 4)).
Proof.
  split; [|split].
  - destruct (proj1 pack_unpack_roundtrip
                {| CommandResponseMessage.source_sequence_num := 42;
                   CommandResponseMessage.response :=
                     CommandResponseMessage.Member
                       CommandResponseMessage.VALUE_ERROR |}
                CommandResponseMessage.__init__ None 0)
      as (buf & y & n & Hp & Hu & Hs & Hi & Hc);
      [reflexivity|lia|vm_compute; discriminate|].
    exists buf, y, n.
    repeat split; try assumption. apply Hc. reflexivity.
  - apply (proj1 (proj2 pack_unpack_roundtrip) [0; 13000; 13001; 13002]
             {| MessageRequest.message_type :=
                  MessageRequest.Member {| defs.value := 13000 |} |}
             (MessageRequest.__init__
                (MessageRequest.Member {| defs.value := 0 |})) None 0);
      [reflexivity|lia|vm_compute; discriminate].
  - apply (proj2 (proj2 pack_unpack_roundtrip)
             {| ResetRequest.reset_mask := ResetRequest.WARM_START |}
             ResetRequest.__init__ None 0);
      [reflexivity|lia|vm_compute; discriminate].
Defined.

(** ** Byte counts *)

(** C2. The byte counts at a nonzero offset. [MessageRequest] and
    [ResetRequest] report 4, their size, but [CommandResponseMessage], whose
    size is 8, reports 8 minus the offset from both [pack] and [unpack]: at
    offset 4 of a 16-byte buffer it reports 4. With no buffer, each [pack]
    allocates one of exactly its size. *)
Theorem byte_counts_at_offset_4 :
  CommandResponseMessage.calcsize = 8
  /\ snd (CommandResponseMessage.pack CommandResponseMessage.__init__
            (Some (bytearray_new 16)) 4 false) = Return (RetCount 4)
  /\ snd (CommandResponseMessage.unpack CommandResponseMessage.__init__
            (bytearray_new 16) 4) = Return 4
  /\ MessageRequest.calcsize = 4
  /\ snd (MessageRequest.pack
            (MessageRequest.__init__
               (MessageRequest.Member {| defs.value := 0 |}))
            (Some (bytearray_new 16)) 4 false) = Return (RetCount 4)
  /\ snd (MessageRequest.unpack [0]
            (MessageRequest.__init__
               (MessageRequest.Member {| defs.value := 0 |}))
            (bytearray_new 16) 4) = Return 4
  /\ ResetRequest.calcsize = 4
  /\ snd (ResetRequest.pack ResetRequest.__init__
            (Some (bytearray_new 16)) 4 false) = Return (RetCount 4)
  /\ snd (ResetRequest.unpack ResetRequest.__init__ (bytearray_new 16) 4)
     = Return 4
  /\ len (fst (CommandResponseMessage.pack CommandResponseMessage.__init__
                 None 0 true)) = 8
  /\ len (fst (MessageRequest.pack
                 (MessageRequest.__init__
                    (MessageRequest.Member {| defs.value := 0 |}))
                 None 0 true)) = 4
  /\ len (fst (ResetRequest.pack ResetRequest.__init__ None 0 true)) = 4.
Proof.
  repeat split; reflexivity.
Qed.

(** ** Message types without a member *)

Section MessageTypeLookup.

Import struct.
Import MessageRequest.

Lemma window_length buffer offset n :
  0 <= offset -> offset + Z.of_nat n <= len buffer ->
  length (window buffer offset n) = n.
Proof.
  unfold len, window. intros H0 Hfit.
  apply length_firstn_skipn. lia.
Qed.

(** A plain integer in [message_type] cannot be packed. *)
Lemma MessageRequest_pack_plain n buffer offset return_buffer :
  pack {| message_type := Plain n |} buffer offset return_buffer
  = (buffer_or_new buffer 4, Raise AttributeError).
Proof. now rewrite MessageRequest_pack_eq. Qed.




End MessageTypeLookup.

(** ** Failure *)

(** C5. A buffer shorter than the message's size cannot be unpacked: at
    any offset, [unpack] raises [struct.error] and returns no count, for
    each of the three messages; so does [ResetRequest.unpack] on every
    3-byte buffer. *)
Theorem unpack_short_buffer_raises :
  (forall self buffer offset,
     len buffer < CommandResponseMessage.calcsize ->
     CommandResponseMessage.unpack self buffer offset
     = (self, Raise StructError))
  /\ (forall members self buffer offset,
        len buffer < MessageRequest.calcsize ->
        MessageRequest.unpack members self buffer offset
        = (self, Raise StructError))
  /\ (forall self buffer offset,
        len buffer < ResetRequest.calcsize ->
        ResetRequest.unpack self buffer offset = (self, Raise StructError))
  /\ (forall self b0 b1 b2 offset,
        ResetRequest.unpack self [b0; b1; b2] offset
        = (self, Raise StructError)).
Proof.
  assert (HR : forall self buffer offset,
            len buffer < ResetRequest.calcsize ->
            ResetRequest.unpack self buffer offset
            = (self, Raise StructError)).
  { intros self buffer offset H.
    rewrite ResetRequest_unpack_eq.
    now rewrite (unpack_from_short ResetRequest._FORMAT [struct.code_I]). }
  repeat split.
  - intros self buffer offset H.
    rewrite CommandResponse_unpack_eq.
    now rewrite (unpack_from_short CommandResponseMessage._FORMAT
                   [struct.code_I; struct.code_B; struct.code_x;
                    struct.code_x; struct.code_x]).
  - intros members self buffer offset H.
    rewrite MessageRequest_unpack_eq.
    now rewrite (unpack_from_short MessageRequest._FORMAT
                   [struct.code_H; struct.code_x; struct.code_x]).
  - exact HR.
  - intros self b0 b1 b2 offset. apply HR. reflexivity.
Qed.

Lemma unpack_short_buffer_raises_witness :
  CommandResponseMessage.unpack CommandResponseMessage.__init__
    (repeat Byte.xff 7) 0
  = (CommandResponseMessage.__init__, Raise StructError)
  /\ MessageRequest.unpack [0; 13000; 13001; 13002]
       (MessageRequest.__init__ (MessageRequest.Member {| defs.value := 0 |}))
       (repeat Byte.xff 3) 0
     = (MessageRequest.__init__
          (MessageRequest.Member {| defs.value := 0 |}), Raise StructError)
  /\ ResetRequest.unpack ResetRequest.__init__
       [Byte.xff; Byte.x01; Byte.x00] 0
     = (ResetRequest.__init__, Raise StructError).
Proof.
  split; [|split].
  - apply (proj1 unpack_short_buffer_raises). reflexivity.
  - apply (proj1 (proj2 unpack_short_buffer_raises)). reflexivity.
  - apply (proj1 (proj2 (proj2 unpack_short_buffer_raises))). reflexivity.
Defined.

(** C9. When [unpack] raises, for whatever reason, the instance's
    attributes are what they were before the call, for each of the three
    messages. *)
Theorem unpack_failure_atomic :
  (forall self buffer offset self' e,
     CommandResponseMessage.unpack self buffer offset = (self', Raise e) ->
     self' = self)
  /\ (forall members self buffer offset self' e,
        MessageRequest.unpack members self buffer offset = (self', Raise e) ->
        self' = self)
  /\ (forall self buffer offset self' e,
        ResetRequest.unpack self buffer offset = (self', Raise e) ->
        self' = self).
Proof.
  repeat split.
  - intros self buffer offset self' e.
    rewrite CommandResponse_unpack_eq.
    destruct (struct.unpack_from _ _ _) as [[|f0 [|f1 [|f2 fs]]]|e'];
      congruence.
  - intros members self buffer offset self' e.
    rewrite MessageRequest_unpack_eq.
    destruct (struct.unpack_from _ _ _) as [[|f0 fs]|e']; try congruence.
    destruct (defs.MessageType members f0); congruence.
  - intros self buffer offset self' e.
    rewrite ResetRequest_unpack_eq.
    destruct (struct.unpack_from _ _ _) as [[|f0 [|f1 fs]]|e']; congruence.
Qed.

Lemma unpack_failure_atomic_witness :
  {| CommandResponseMessage.source_sequence_num := 7;
     CommandResponseMessage.response := CommandResponseMessage.Plain 9 |}
  = {| CommandResponseMessage.source_sequence_num := 7;
       CommandResponseMessage.response := CommandResponseMessage.Plain 9 |}
  /\ MessageRequest.__init__ (MessageRequest.Member {| defs.value := 0 |})
     = MessageRequest.__init__ (MessageRequest.Member {| defs.value := 0 |})
  /\ {| ResetRequest.reset_mask := ResetRequest.HOT_START |}
     = {| ResetRequest.reset_mask := ResetRequest.HOT_START |}.
Proof.
  split; [|split].
  - apply (proj1 unpack_failure_atomic
             {| CommandResponseMessage.source_sequence_num := 7;
                CommandResponseMessage.response :=
                  CommandResponseMessage.Plain 9 |}
             (repeat Byte.xff 7) 0 _ StructError).
    reflexivity.
  - apply (proj1 (proj2 unpack_failure_atomic) [0; 13000; 13001; 13002]
             (MessageRequest.__init__
                (MessageRequest.Member {| defs.value := 0 |}))
             [Byte.xff; Byte.xff; Byte.x00; Byte.x00] 0 _ ValueError).
    reflexivity.
  - apply (proj2 (proj2 unpack_failure_atomic)
             {| ResetRequest.reset_mask := ResetRequest.HOT_START |}
             [Byte.xff; Byte.x01; Byte.x00] 0 _ StructError).
    reflexivity.
Defined.

(** ** Frame *)

(** C8. [pack] into a caller's buffer, at an offset where the message
    fits, leaves the buffer's length and every byte outside
    [offset, offset + size) as they were, for each of the three messages
    and whether or not the call then raises. *)
Theorem pack_frame :
  (forall self buffer offset return_buffer,
     0 <= offset ->
     offset + CommandResponseMessage.calcsize <= len buffer ->
     len (fst (CommandResponseMessage.pack self (Some buffer) offset
                 return_buffer)) = len buffer
     /\ forall i,
          i < offset \/ offset + CommandResponseMessage.calcsize <= i ->
          byte_at (fst (CommandResponseMessage.pack self (Some buffer) offset
                          return_buffer)) i
          = byte_at buffer i)
  /\ (forall self buffer offset return_buffer,
        0 <= offset ->
        offset + MessageRequest.calcsize <= len buffer ->
        len (fst (MessageRequest.pack self (Some buffer) offset
                    return_buffer)) = len buffer
        /\ forall i,
             i < offset \/ offset + MessageRequest.calcsize <= i ->
             byte_at (fst (MessageRequest.pack self (Some buffer) offset
                             return_buffer)) i
             = byte_at buffer i)
  /\ (forall self buffer offset return_buffer,
        0 <= offset ->
        offset + ResetRequest.calcsize <= len buffer ->
        len (fst (ResetRequest.pack self (Some buffer) offset
                    return_buffer)) = len buffer
        /\ forall i,
             i < offset \/ offset + ResetRequest.calcsize <= i ->
             byte_at (fst (ResetRequest.pack self (Some buffer) offset
                             return_buffer)) i
             = byte_at buffer i).
Proof.
  repeat apply conj.
  - intros self buffer offset rb H0 Hfit.
    rewrite CommandResponse_pack_eq. cbv zeta. cbn [buffer_or_new].
    change CommandResponseMessage.calcsize with 8 in *.
    rewrite resolve_offset_fits by assumption. cbn [fst].
    destruct (splice_pack_internal_frame buffer offset
                [struct.code_I; struct.code_B; struct.code_x;
                 struct.code_x; struct.code_x]
                [CommandResponseMessage.source_sequence_num self;
                 CommandResponseMessage.int
                   (CommandResponseMessage.response self)] H0 Hfit)
      as [Hl Hout].
    split; [unfold len; now rewrite Hl|exact Hout].
  - intros self buffer offset rb H0 Hfit.
    rewrite MessageRequest_pack_eq. cbv zeta. cbn [buffer_or_new].
    change MessageRequest.calcsize with 4 in *.
    destruct (MessageRequest.message_type self) as [m|n]; [|now split].
    rewrite resolve_offset_fits by assumption. cbn [fst].
    destruct (splice_pack_internal_frame buffer offset
                [struct.code_H; struct.code_x; struct.code_x]
                [defs.value m] H0 Hfit) as [Hl Hout].
    split; [unfold len; now rewrite Hl|exact Hout].
  - intros self buffer offset rb H0 Hfit.
    rewrite ResetRequest_pack_eq. cbv zeta. cbn [buffer_or_new].
    change ResetRequest.calcsize with 4 in *.
    rewrite resolve_offset_fits by assumption. cbn [fst].
    destruct (splice_pack_internal_frame buffer offset [struct.code_I]
                [ResetRequest.reset_mask self] H0 Hfit) as [Hl Hout].
    split; [unfold len; now rewrite Hl|exact Hout].
Qed.

Lemma pack_frame_witness :
  byte_at (fst (CommandResponseMessage.pack CommandResponseMessage.__init__
                  (Some (repeat Byte.xff 16)) 4 true)) 3
  = byte_at (repeat Byte.xff 16) 3
  /\ byte_at (fst (MessageRequest.pack
                     (MessageRequest.__init__
                        (MessageRequest.Member {| defs.value := 13000 |}))
                     (Some (repeat Byte.xff 16)) 4 true)) 8
     = byte_at (repeat Byte.xff 16) 8
  /\ byte_at (fst (ResetRequest.pack ResetRequest.__init__
                     (Some (repeat Byte.xff 16)) 4 true)) 15
     = byte_at (repeat Byte.xff 16) 15.
Proof.
  split; [|split].
  - apply (proj1 pack_frame CommandResponseMessage.__init__
             (repeat Byte.xff 16) 4 true);
      [lia|vm_compute; discriminate|left; lia].
  - apply (proj1 (proj2 pack_frame)
             (MessageRequest.__init__
                (MessageRequest.Member {| defs.value := 13000 |}))
             (repeat Byte.xff 16) 4 true);
      [lia|vm_compute; discriminate|right; vm_compute; discriminate].
  - apply (proj2 (proj2 pack_frame) ResetRequest.__init__
             (repeat Byte.xff 16) 4 true);
      [lia|vm_compute; discriminate|right; vm_compute; discriminate].
Defined.

(** ** Padding *)

Section Padding.

Import struct.

Lemma CommandResponse_unpack_pads self b1 b2 offset :
  0 <= offset -> length b1 = length b2 ->
  (forall i, i <> offset + 5 -> i <> offset + 6 -> i <> offset + 7 ->
     byte_at b1 i = byte_at b2 i) ->
  CommandResponseMessage.unpack self b1 offset
  = CommandResponseMessage.unpack self b2 offset.
Proof.
  intros H0 Hlen H. rewrite !CommandResponse_unpack_eq.
  rewrite (unpack_from_pad_agree CommandResponseMessage._FORMAT
             [code_I; code_B; code_x; code_x; code_x] b1 b2);
    try assumption; try reflexivity.
  intros i Hi Hpad.
  do 8 (destruct i as [|i]; [try discriminate Hpad; apply H; lia|]).
  cbn [size_of code_size] in Hi. lia.
Qed.

Lemma MessageRequest_unpack_pads members self b1 b2 offset :
  0 <= offset -> length b1 = length b2 ->
  (forall i, i <> offset + 2 -> i <> offset + 3 ->
     byte_at b1 i = byte_at b2 i) ->
  MessageRequest.unpack members self b1 offset
  = MessageRequest.unpack members self b2 offset.
Proof.
  intros H0 Hlen H. rewrite !MessageRequest_unpack_eq.
  rewrite (unpack_from_pad_agree MessageRequest._FORMAT
             [code_H; code_x; code_x] b1 b2);
    try assumption; try reflexivity.
  intros i Hi Hpad.
  do 4 (destruct i as [|i]; [try discriminate Hpad; apply H; lia|]).
  cbn [size_of code_size] in Hi. lia.
Qed.

(** ['<I'] has no pad byte. *)
Lemma ResetRequest_no_pads i : pad_at [code_I] i = false.
Proof.
  cbn [pad_at code_size]. destruct (i <? 4)%nat; [reflexivity|].
  now destruct (i - 4)%nat.
Qed.

Lemma MessageRequest_pack_zero_pads self m buffer offset return_buffer :
  MessageRequest.message_type self = MessageRequest.Member m ->
  0 <= offset -> offset + 4 <= len (buffer_or_new buffer 4) ->
  byte_at (fst (MessageRequest.pack self buffer offset return_buffer))
    (offset + 2) = Some Byte.x00
  /\ byte_at (fst (MessageRequest.pack self buffer offset return_buffer))
       (offset + 3) = Some Byte.x00.
Proof.
  intros Hm H0 Hfit. rewrite MessageRequest_pack_eq. cbv zeta.
  rewrite Hm, resolve_offset_fits by assumption. cbn [fst pack_internal].
  change (offset + 2) with (offset + Z.of_nat 2).
  change (offset + 3) with (offset + Z.of_nat 3).
  destruct (in_range code_H (defs.value m)); cbn [fst];
    (split; (rewrite byte_at_splice_inside; [reflexivity|lia|lia|simpl; lia])).
Qed.

End Padding.

(** C7. Pad bytes are written as zero and ignored on read.
    [MessageRequest.pack] of an instance holding a member, into any buffer
    it fits in and whatever the buffer held, leaves bytes 2 and 3 of the
    payload zero. And for each message, two buffers of one length that
    differ at most in the payload's pad bytes (5, 6, 7 of a command
    response; 2, 3 of a message request; none of a reset request) unpack to
    the same attributes and the same result. *)
Theorem padding_zeroed_and_ignored :
  (forall self m buffer offset return_buffer,
     MessageRequest.message_type self = MessageRequest.Member m ->
     0 <= offset -> offset + 4 <= len buffer ->
     byte_at (fst (MessageRequest.pack self (Some buffer) offset
                     return_buffer)) (offset + 2) = Some Byte.x00
     /\ byte_at (fst (MessageRequest.pack self (Some buffer) offset
                        return_buffer)) (offset + 3) = Some Byte.x00)
  /\ (forall self b1 b2 offset,
        0 <= offset -> length b1 = length b2 ->
        (forall i, i <> offset + 5 -> i <> offset + 6 -> i <> offset + 7 ->
           byte_at b1 i = byte_at b2 i) ->
        CommandResponseMessage.unpack self b1 offset
        = CommandResponseMessage.unpack self b2 offset)
  /\ (forall members self b1 b2 offset,
        0 <= offset -> length b1 = length b2 ->
        (forall i, i <> offset + 2 -> i <> offset + 3 ->
           byte_at b1 i = byte_at b2 i) ->
        MessageRequest.unpack members self b1 offset
        = MessageRequest.unpack members self b2 offset)
  /\ (forall self b1 b2 offset,
        length b1 = length b2 ->
        (forall i, byte_at b1 i = byte_at b2 i) ->
        ResetRequest.unpack self b1 offset
        = ResetRequest.unpack self b2 offset).
Proof.
  repeat apply conj.
  - intros self m buffer offset rb Hm H0 Hfit.
    now apply (MessageRequest_pack_zero_pads self m (Some buffer)).
  - exact CommandResponse_unpack_pads.
  - exact MessageRequest_unpack_pads.
  - intros self b1 b2 offset _ H.
    assert (Hb : b1 = b2); [|now rewrite Hb].
    apply nth_error_ext. intros n.
    specialize (H (Z.of_nat n)).
    rewrite !byte_at_nat, Nat2Z.id in H by lia. exact H.
Qed.

Lemma padding_zeroed_and_ignored_witness :
  (byte_at (fst (MessageRequest.pack
                   (MessageRequest.__init__
                      (MessageRequest.Member {| defs.value := 13000 |}))
                   (Some (repeat Byte.xff 16)) 4 true)) (4 + 2)
   = Some Byte.x00
   /\ byte_at (fst (MessageRequest.pack
                      (MessageRequest.__init__
                         (MessageRequest.Member {| defs.value := 13000 |}))
                      (Some (repeat Byte.xff 16)) 4 true)) (4 + 3)
      = Some Byte.x00)
  /\ CommandResponseMessage.unpack CommandResponseMessage.__init__
       [Byte.x2a; Byte.x00; Byte.x00; Byte.x00;
        Byte.x03; Byte.x00; Byte.x00; Byte.x00] 0
     = CommandResponseMessage.unpack CommandResponseMessage.__init__
         [Byte.x2a; Byte.x00; Byte.x00; Byte.x00;
          Byte.x03; Byte.xff; Byte.xfe; Byte.xfd] 0
  /\ MessageRequest.unpack [0; 13000; 13001; 13002]
       (MessageRequest.__init__ (MessageRequest.Member {| defs.value := 0 |}))
       [Byte.xc8; Byte.x32; Byte.x00; Byte.x00] 0
     = MessageRequest.unpack [0; 13000; 13001; 13002]
         (MessageRequest.__init__
            (MessageRequest.Member {| defs.value := 0 |}))
         [Byte.xc8; Byte.x32; Byte.xff; Byte.xfe] 0
  /\ ResetRequest.unpack ResetRequest.__init__
       [Byte.xff; Byte.x01; Byte.x00; Byte.x00] 0
     = ResetRequest.unpack ResetRequest.__init__
         [Byte.xff; Byte.x01; Byte.x00; Byte.x00] 0.
Proof.
  split; [|split; [|split]].
  - apply (proj1 padding_zeroed_and_ignored
             (MessageRequest.__init__
                (MessageRequest.Member {| defs.value := 13000 |}))
             {| defs.value := 13000 |} (repeat Byte.xff 16) 4 true);
      [reflexivity|lia|vm_compute; discriminate].
  - apply (proj1 (proj2 padding_zeroed_and_ignored));
      [lia|reflexivity|].
    intros i H5 H6 H7. unfold byte_at.
    destruct (Z.ltb_spec i 0); [reflexivity|].
    assert (Hi : i = Z.of_nat (Z.to_nat i)) by lia.
    destruct (Z.to_nat i) as [|[|[|[|[|[|[|[|n]]]]]]]];
      try reflexivity; lia.
  - apply (proj1 (proj2 (proj2 padding_zeroed_and_ignored)));
      [lia|reflexivity|].
    intros i H2 H3. unfold byte_at.
    destruct (Z.ltb_spec i 0); [reflexivity|].
    assert (Hi : i = Z.of_nat (Z.to_nat i)) by lia.
    destruct (Z.to_nat i) as [|[|[|[|n]]]];
      try reflexivity; lia.
  - apply (proj2 (proj2 (proj2 padding_zeroed_and_ignored)));
      [reflexivity|reflexivity].
Defined.

(** * Further properties of [pack] and [unpack] *)

(** ** Offsets *)

Section Offsets.

Import struct.

Lemma resolve_offset_negative blen size k :
  0 < k -> size <= k -> k <= blen ->
  resolve_offset blen size (- k) = Some (blen - k).
Proof.
  intros Hk Hs Hb. unfold resolve_offset.
  destruct (Z.ltb_spec (- k) 0); [|lia].
  destruct (Z.ltb_spec 0 (- k + size)); [lia|].
  destruct (Z.ltb_spec (- k + blen) 0); [lia|].
  destruct (Z.ltb_spec (blen - (- k + blen)) size); [lia|].
  f_equal. lia.
Qed.


End Offsets.





(** ** Byte counts at any offset *)

(** Whenever they return, at whatever offset, [MessageRequest] and
    [ResetRequest] report 4 bytes, their size, from [unpack] and from
    [pack] called with [return_buffer=False]. *)
Theorem request_byte_counts :
  (forall self buffer offset r,
     snd (MessageRequest.pack self buffer offset false) = Return r ->
     r = RetCount MessageRequest.calcsize)
  /\ (forall members self buffer offset n,
        snd (MessageRequest.unpack members self buffer offset) = Return n ->
        n = MessageRequest.calcsize)
  /\ (forall self buffer offset r,
        snd (ResetRequest.pack self buffer offset false) = Return r ->
        r = RetCount ResetRequest.calcsize)
  /\ (forall self buffer offset n,
        snd (ResetRequest.unpack self buffer offset) = Return n ->
        n = ResetRequest.calcsize).
Proof.
  repeat apply conj.
  - intros self buffer offset r. rewrite MessageRequest_pack_eq. cbv zeta.
    destruct (MessageRequest.message_type self); [|discriminate].
    destruct (struct.resolve_offset _ _ _); [|discriminate].
    cbn [snd]. destruct (snd (struct.pack_internal _ _)); [discriminate|].
    now intros [= <-].
  - intros members self buffer offset n. rewrite MessageRequest_unpack_eq.
    destruct (struct.unpack_from _ _ _) as [[|f0 fs]|e]; try discriminate.
    destruct (defs.MessageType members f0); [|discriminate].
    now intros [= <-].
  - intros self buffer offset r. rewrite ResetRequest_pack_eq. cbv zeta.
    destruct (struct.resolve_offset _ _ _); [|discriminate].
    cbn [snd]. destruct (snd (struct.pack_internal _ _)); [discriminate|].
    now intros [= <-].
  - intros self buffer offset n. rewrite ResetRequest_unpack_eq.
    destruct (struct.unpack_from _ _ _) as [[|f0 [|f1 fs]]|e];
      try discriminate.
    now intros [= <-].
Qed.

Lemma request_byte_counts_witness :
  RetCount 4 = RetCount MessageRequest.calcsize
  /\ 4 = MessageRequest.calcsize
  /\ RetCount 4 = RetCount ResetRequest.calcsize
  /\ 4 = ResetRequest.calcsize.
Proof.
  repeat apply conj.
  - apply (proj1 request_byte_counts
             (MessageRequest.__init__
                (MessageRequest.Member {| defs.value := 13000 |}))
             (Some (repeat Byte.xff 16)) 4).
    reflexivity.
  - apply (proj1 (proj2 request_byte_counts) [0; 13000]
             (MessageRequest.__init__
                (MessageRequest.Member {| defs.value := 0 |}))
             (repeat Byte.x00 16) (- 8)).
    reflexivity.
  - apply (proj1 (proj2 (proj2 request_byte_counts)) ResetRequest.__init__
             (Some (repeat Byte.xff 16)) 12).
    reflexivity.
  - apply (proj2 (proj2 (proj2 request_byte_counts)) ResetRequest.__init__
             (repeat Byte.xff 16) 5).
    reflexivity.
Defined.

(** Whenever they return, [CommandResponseMessage.pack] called with
    [return_buffer=False] and [CommandResponseMessage.unpack] report 8
    minus the offset they were given: the message's size exactly when the
    offset is 0. *)
Theorem CommandResponse_byte_counts :
  (forall self buffer offset r,
     snd (CommandResponseMessage.pack self buffer offset false) = Return r ->
     r = RetCount (CommandResponseMessage.calcsize - offset))
  /\ (forall self buffer offset n,
        snd (CommandResponseMessage.unpack self buffer offset) = Return n ->
        n = CommandResponseMessage.calcsize - offset).
Proof.
  split.
  - intros self buffer offset r. rewrite CommandResponse_pack_eq. cbv zeta.
    destruct (struct.resolve_offset _ _ _); [|discriminate].
    cbn [snd]. destruct (snd (struct.pack_internal _ _)); [discriminate|].
    now intros [= <-].
  - intros self buffer offset n. rewrite CommandResponse_unpack_eq.
    destruct (struct.unpack_from _ _ _) as [[|f0 [|f1 [|f2 fs]]]|e];
      try discriminate.
    now intros [= <-].
Qed.

Lemma CommandResponse_byte_counts_witness :
  RetCount 5 = RetCount (CommandResponseMessage.calcsize - 3)
  /\ 16 = CommandResponseMessage.calcsize - (- 8).
Proof.
  split.
  - apply (proj1 CommandResponse_byte_counts CommandResponseMessage.__init__
             (Some (repeat Byte.xff 16)) 3).
    reflexivity.
  - apply (proj2 CommandResponse_byte_counts CommandResponseMessage.__init__
             (repeat Byte.xff 16) (- 8)).
    reflexivity.
Defined.

(** ** When [pack] succeeds *)

Section PackSucceeds.

Import struct.

Lemma CommandResponse_valid_in_range self :
  CommandResponseMessage.valid self
  = in_range code_I (CommandResponseMessage.source_sequence_num self)
    && in_range code_B
         (CommandResponseMessage.int (CommandResponseMessage.response self)).
Proof.
  unfold CommandResponseMessage.valid, in_range.
  change (2 ^ (8 * Z.of_nat (code_size code_I))) with (2 ^ 32).
  change (2 ^ (8 * Z.of_nat (code_size code_B))) with (2 ^ 8).
  now rewrite <- !andb_assoc.
Qed.

Lemma CommandResponse_pack_succeeds self buffer offset return_buffer :
  0 <= offset -> offset + 8 <= len buffer ->
  (exists r,
     snd (CommandResponseMessage.pack self (Some buffer) offset return_buffer)
     = Return r)
  <-> CommandResponseMessage.valid self = true.
Proof.
  intros H0 Hfit. split.
  - intros [r Hr]. rewrite CommandResponse_pack_eq in Hr. cbv zeta in Hr.
    cbn [buffer_or_new] in Hr.
    rewrite resolve_offset_fits in Hr by assumption.
    rewrite CommandResponse_valid_in_range.
    cbn [snd pack_internal] in Hr.
    destruct (in_range code_I _); [|discriminate].
    destruct (in_range code_B _); [reflexivity|discriminate].
  - intros Hv. rewrite CommandResponse_pack_valid by assumption.
    eexists. reflexivity.
Qed.

Lemma MessageRequest_pack_succeeds self buffer offset return_buffer :
  0 <= offset -> offset + 4 <= len buffer ->
  (exists r,
     snd (MessageRequest.pack self (Some buffer) offset return_buffer)
     = Return r)
  <-> exists m,
        MessageRequest.message_type self = MessageRequest.Member m
        /\ 0 <= defs.value m < 2 ^ 16.
Proof.
  intros H0 Hfit. split.
  - intros [r Hr]. rewrite MessageRequest_pack_eq in Hr. cbv zeta in Hr.
    cbn [buffer_or_new] in Hr.
    destruct (MessageRequest.message_type self) as [m|n]; [|discriminate].
    exists m. split; [reflexivity|].
    rewrite resolve_offset_fits in Hr by assumption.
    cbn [snd pack_internal] in Hr.
    destruct (in_range code_H (defs.value m)) eqn:E; [|discriminate].
    unfold in_range in E. apply andb_true_iff in E as [E1 E2].
    apply Z.leb_le in E1. apply Z.ltb_lt in E2.
    change (2 ^ (8 * Z.of_nat (code_size code_H))) with (2 ^ 16) in E2. lia.
  - intros (m & Hm & Hv).
    rewrite (MessageRequest_pack_valid _ _ _ _ m) by assumption.
    eexists. reflexivity.
Qed.

Lemma ResetRequest_pack_succeeds self buffer offset return_buffer :
  0 <= offset -> offset + 4 <= len buffer ->
  (exists r,
     snd (ResetRequest.pack self (Some buffer) offset return_buffer)
     = Return r)
  <-> ResetRequest.valid self = true.
Proof.
  intros H0 Hfit. split.
  - intros [r Hr]. rewrite ResetRequest_pack_eq in Hr. cbv zeta in Hr.
    cbn [buffer_or_new] in Hr.
    rewrite resolve_offset_fits in Hr by assumption.
    cbn [snd pack_internal] in Hr.
    destruct (in_range code_I (ResetRequest.reset_mask self)) eqn:E;
      [exact E|discriminate].
  - intros Hv. rewrite ResetRequest_pack_valid by assumption.
    eexists. reflexivity.
Qed.

End PackSucceeds.

(** Into a buffer the message fits in, [pack] returns exactly when the
    attributes fit their fields: an unsigned 32-bit sequence number and a
    response of integer value 0..255; a [MessageType] member of value
    0..65535; an unsigned 32-bit mask. Otherwise it raises. *)
Theorem pack_succeeds_iff_in_range :
  (forall self buffer offset return_buffer,
     0 <= offset -> offset + 8 <= len buffer ->
     (exists r,
        snd (CommandResponseMessage.pack self (Some buffer) offset
               return_buffer) = Return r)
     <-> CommandResponseMessage.valid self = true)
  /\ (forall self buffer offset return_buffer,
        0 <= offset -> offset + 4 <= len buffer ->
        (exists r,
           snd (MessageRequest.pack self (Some buffer) offset return_buffer)
           = Return r)
        <-> exists m,
              MessageRequest.message_type self = MessageRequest.Member m
              /\ 0 <= defs.value m < 2 ^ 16)
  /\ (forall self buffer offset return_buffer,
        0 <= offset -> offset + 4 <= len buffer ->
        (exists r,
           snd (ResetRequest.pack self (Some buffer) offset return_buffer)
           = Return r)
        <-> ResetRequest.valid self = true).
Proof.
  repeat apply conj.
  - exact CommandResponse_pack_succeeds.
  - exact MessageRequest_pack_succeeds.
  - exact ResetRequest_pack_succeeds.
Qed.

Lemma pack_succeeds_iff_in_range_witness :
  CommandResponseMessage.valid
    {| CommandResponseMessage.source_sequence_num := 42;
       CommandResponseMessage.response := CommandResponseMessage.Plain 200 |}
  = true
  /\ (exists m,
        MessageRequest.Member {| defs.value := 13000 |}
        = MessageRequest.Member m
        /\ 0 <= defs.value m < 2 ^ 16)
  /\ ~ (exists r,
          snd (ResetRequest.pack {| ResetRequest.reset_mask := 2 ^ 32 |}
                 (Some (repeat Byte.xff 8)) 2 true) = Return r).
Proof.
  repeat apply conj.
  - apply (proj1 pack_succeeds_iff_in_range
             {| CommandResponseMessage.source_sequence_num := 42;
                CommandResponseMessage.response :=
                  CommandResponseMessage.Plain 200 |}
             (repeat Byte.xff 8) 0 true);
      [lia|vm_compute; discriminate|].
    eexists. reflexivity.
  - apply (proj1 (proj2 pack_succeeds_iff_in_range)
             (MessageRequest.__init__
                (MessageRequest.Member {| defs.value := 13000 |}))
             (repeat Byte.xff 8) 4 false);
      [lia|vm_compute; discriminate|].
    eexists. reflexivity.
  - intros H.
    apply (proj2 (proj2 pack_succeeds_iff_in_range)
             {| ResetRequest.reset_mask := 2 ^ 32 |}
             (repeat Byte.xff 8) 2 true) in H;
      [discriminate H|lia|vm_compute; discriminate].
Defined.

(** ** Windows *)

Section Windows.

Import struct.

Lemma splice_exact b w :
  length b = length w -> splice b 0 w = w.
Proof.
  intros H. unfold splice. cbn [Z.to_nat firstn Nat.add app].
  rewrite skipn_all2 by lia. apply app_nil_r.
Qed.

Lemma length_bytearray_new n :
  0 <= n -> length (bytearray_new n) = Z.to_nat n.
Proof. intros _. unfold bytearray_new. apply repeat_length. Qed.

Lemma byte_at_fits buffer i :
  0 <= i < len buffer -> exists b, byte_at buffer i = Some b.
Proof.
  unfold len. intros H. rewrite byte_at_nat by lia.
  destruct (nth_error buffer (Z.to_nat i)) as [b|] eqn:E; [now exists b|].
  apply nth_error_None in E. lia.
Qed.

Lemma byte_at_window buffer offset n i :
  0 <= offset -> (i < n)%nat ->
  nth_error (window buffer offset n) i = byte_at buffer (offset + Z.of_nat i).
Proof.
  intros H0 Hi. unfold window. rewrite nth_error_window_like by exact Hi.
  rewrite byte_at_nat by lia. f_equal. lia.
Qed.

Lemma le_combine_firstn_bound n (l : list byte) :
  0 <= le_combine (firstn n l) < 2 ^ (8 * Z.of_nat n).
Proof.
  pose proof (le_combine_bound (firstn n l)) as H.
  assert (Hl : (length (firstn n l) <= n)%nat)
    by (rewrite length_firstn; lia).
  assert (2 ^ (8 * Z.of_nat (length (firstn n l))) <= 2 ^ (8 * Z.of_nat n))
    by (apply Z.pow_le_mono_r; lia).
  lia.
Qed.

(** What [unpack_from] yields depends on the window alone. *)
Lemma unpack_from_window fmt cs b1 b2 o1 o2 :
  parse_format fmt = Some cs ->
  0 <= o1 -> o1 + Z.of_nat (size_of cs) <= len b1 ->
  0 <= o2 -> o2 + Z.of_nat (size_of cs) <= len b2 ->
  window b1 o1 (size_of cs) = window b2 o2 (size_of cs) ->
  unpack_from fmt b1 o1 = unpack_from fmt b2 o2.
Proof.
  intros Hp H1 Hf1 H2 Hf2 Hw.
  rewrite !(unpack_from_eq _ _ _ _ Hp), !resolve_offset_fits by assumption.
  now rewrite Hw.
Qed.

End Windows.

(** Packing valid attributes into a caller's buffer writes, at the offset,
    the very bytes that packing without a buffer returns: what the buffer
    held there before has no influence. *)
Theorem pack_in_place_is_standalone :
  (forall self buffer offset return_buffer,
     CommandResponseMessage.valid self = true ->
     0 <= offset -> offset + 8 <= len buffer ->
     struct.window
       (fst (CommandResponseMessage.pack self (Some buffer) offset
               return_buffer)) offset 8
     = fst (CommandResponseMessage.pack self None 0 true))
  /\ (forall members self buffer offset return_buffer,
        MessageRequest.valid members self = true ->
        0 <= offset -> offset + 4 <= len buffer ->
        struct.window
          (fst (MessageRequest.pack self (Some buffer) offset return_buffer))
          offset 4
        = fst (MessageRequest.pack self None 0 true))
  /\ (forall self buffer offset return_buffer,
        ResetRequest.valid self = true ->
        0 <= offset -> offset + 4 <= len buffer ->
        struct.window
          (fst (ResetRequest.pack self (Some buffer) offset return_buffer))
          offset 4
        = fst (ResetRequest.pack self None 0 true)).
Proof.
  repeat apply conj.
  - intros self buffer offset rb Hv H0 Hfit.
    rewrite !CommandResponse_pack_valid;
      try assumption; try lia; [|vm_compute; discriminate].
    cbn [fst buffer_or_new]. unfold len in Hfit.
    rewrite splice_exact by reflexivity.
    apply (window_splice buffer offset
             (le_split 4 _ ++ le_split 1 _ ++ [_; _; _])). lia.
  - intros members self buffer offset rb Hv H0 Hfit.
    unfold MessageRequest.valid in Hv.
    destruct (MessageRequest.message_type self) as [m|n] eqn:Hm;
      [|discriminate].
    apply andb_true_iff in Hv as [Hv H2]. apply andb_true_iff in Hv as [_ H1].
    apply Z.leb_le in H1. apply Z.ltb_lt in H2.
    rewrite !(MessageRequest_pack_valid _ _ _ _ m);
      try assumption; try lia; [|vm_compute; discriminate].
    cbn [fst buffer_or_new]. unfold len in Hfit.
    rewrite splice_exact by reflexivity.
    apply (window_splice buffer offset (le_split 2 _ ++ [_; _])). lia.
  - intros self buffer offset rb Hv H0 Hfit.
    rewrite !ResetRequest_pack_valid;
      try assumption; try lia; [|vm_compute; discriminate].
    cbn [fst buffer_or_new]. unfold len in Hfit.
    rewrite splice_exact by reflexivity.
    apply (window_splice buffer offset (le_split 4 _ ++ [])). lia.
Qed.

Lemma pack_in_place_is_standalone_witness :
  struct.window
    (fst (CommandResponseMessage.pack
            {| CommandResponseMessage.source_sequence_num := 42;
               CommandResponseMessage.response :=
                 CommandResponseMessage.Member
                   CommandResponseMessage.VALUE_ERROR |}
            (Some (repeat Byte.xff 16)) 4 false)) 4 8
  = [Byte.x2a; Byte.x00; Byte.x00; Byte.x00;
     Byte.x03; Byte.x00; Byte.x00; Byte.x00]
  /\ struct.window
       (fst (MessageRequest.pack
               (MessageRequest.__init__
                  (MessageRequest.Member {| defs.value := 13000 |}))
               (Some (repeat Byte.xff 16)) 12 false)) 12 4
     = [Byte.xc8; Byte.x32; Byte.x00; Byte.x00]
  /\ struct.window
       (fst (ResetRequest.pack
               {| ResetRequest.reset_mask := ResetRequest.WARM_START |}
               (Some (repeat Byte.xff 16)) 0 false)) 0 4
     = [Byte.xff; Byte.x01; Byte.x00; Byte.x00].
Proof.
  repeat apply conj.
  - apply (proj1 pack_in_place_is_standalone
             {| CommandResponseMessage.source_sequence_num := 42;
                CommandResponseMessage.response :=
                  CommandResponseMessage.Member
                    CommandResponseMessage.VALUE_ERROR |}
             (repeat Byte.xff 16) 4 false);
      [reflexivity|lia|vm_compute; discriminate].
  - apply (proj1 (proj2 pack_in_place_is_standalone) [0; 13000]
             (MessageRequest.__init__
                (MessageRequest.Member {| defs.value := 13000 |}))
             (repeat Byte.xff 16) 12 false);
      [reflexivity|lia|vm_compute; discriminate].
  - apply (proj2 (proj2 pack_in_place_is_standalone)
             {| ResetRequest.reset_mask := ResetRequest.WARM_START |}
             (repeat Byte.xff 16) 0 false);
      [reflexivity|lia|vm_compute; discriminate].
Defined.

(** [unpack] reads its window and nothing else: two buffers, each holding
    the same bytes at its own offset, unpack to the same attributes,
    whatever surrounds those bytes and wherever they sit. *)
Theorem unpack_reads_only_window :
  (forall self b1 o1 b2 o2,
     0 <= o1 -> o1 + 8 <= len b1 -> 0 <= o2 -> o2 + 8 <= len b2 ->
     struct.window b1 o1 8 = struct.window b2 o2 8 ->
     fst (CommandResponseMessage.unpack self b1 o1)
     = fst (CommandResponseMessage.unpack self b2 o2))
  /\ (forall members self b1 o1 b2 o2,
        0 <= o1 -> o1 + 4 <= len b1 -> 0 <= o2 -> o2 + 4 <= len b2 ->
        struct.window b1 o1 4 = struct.window b2 o2 4 ->
        MessageRequest.unpack members self b1 o1
        = MessageRequest.unpack members self b2 o2)
  /\ (forall self b1 o1 b2 o2,
        0 <= o1 -> o1 + 4 <= len b1 -> 0 <= o2 -> o2 + 4 <= len b2 ->
        struct.window b1 o1 4 = struct.window b2 o2 4 ->
        ResetRequest.unpack self b1 o1 = ResetRequest.unpack self b2 o2).
Proof.
  repeat apply conj.
  - intros self b1 o1 b2 o2 H1 Hf1 H2 Hf2 Hw.
    rewrite !CommandResponse_unpack_eq.
    rewrite (unpack_from_window CommandResponseMessage._FORMAT
               [struct.code_I; struct.code_B; struct.code_x; struct.code_x;
                struct.code_x] b1 b2 o1 o2); try assumption; try reflexivity.
    now destruct (struct.unpack_from _ b2 o2) as [[|f0 [|f1 [|f2 fs]]]|e].
  - intros members self b1 o1 b2 o2 H1 Hf1 H2 Hf2 Hw.
    rewrite !MessageRequest_unpack_eq.
    now rewrite (unpack_from_window MessageRequest._FORMAT
                   [struct.code_H; struct.code_x; struct.code_x] b1 b2 o1 o2).
  - intros self b1 o1 b2 o2 H1 Hf1 H2 Hf2 Hw.
    rewrite !ResetRequest_unpack_eq.
    now rewrite (unpack_from_window ResetRequest._FORMAT
                   [struct.code_I] b1 b2 o1 o2).
Qed.

Lemma unpack_reads_only_window_witness :
  fst (CommandResponseMessage.unpack CommandResponseMessage.__init__
         (repeat Byte.x01 8 ++ [Byte.xff]) 0)
  = fst (CommandResponseMessage.unpack CommandResponseMessage.__init__
           (Byte.x00 :: repeat Byte.x01 8) 1)
  /\ MessageRequest.unpack [0; 13000]
       (MessageRequest.__init__ (MessageRequest.Member {| defs.value := 0 |}))
       [Byte.xc8; Byte.x32; Byte.x00; Byte.x00; Byte.xff] 0
     = MessageRequest.unpack [0; 13000]
         (MessageRequest.__init__
            (MessageRequest.Member {| defs.value := 0 |}))
         [Byte.xee; Byte.xee; Byte.xc8; Byte.x32; Byte.x00; Byte.x00] 2
  /\ ResetRequest.unpack ResetRequest.__init__
       [Byte.xff; Byte.x01; Byte.x00; Byte.x00; Byte.xff] 0
     = ResetRequest.unpack ResetRequest.__init__
         [Byte.xee; Byte.xff; Byte.x01; Byte.x00; Byte.x00] 1.
Proof.
  repeat apply conj.
  - apply (proj1 unpack_reads_only_window);
      (lia || reflexivity || (vm_compute; discriminate)).
  - apply (proj1 (proj2 unpack_reads_only_window));
      (lia || reflexivity || (vm_compute; discriminate)).
  - apply (proj2 (proj2 unpack_reads_only_window));
      (lia || reflexivity || (vm_compute; discriminate)).
Defined.

(** ** What [unpack] leaves *)

Section UnpackResult.

Import struct.

Lemma CommandResponse_unpack_valid self buffer offset self' n :
  CommandResponseMessage.unpack self buffer offset = (self', Return n) ->
  CommandResponseMessage.valid self' = true
  /\ CommandResponseMessage.canonical
       (CommandResponseMessage.response self') = true.
Proof.
  rewrite CommandResponse_unpack_eq.
  rewrite (unpack_from_eq CommandResponseMessage._FORMAT
             [code_I; code_B; code_x; code_x; code_x]) by reflexivity.
  destruct (resolve_offset _ _ _) as [start|]; [|discriminate].
  cbn [unpack_internal code_size].
  set (w := window buffer start _).
  pose proof (le_combine_firstn_bound 4 w) as H4.
  pose proof (le_combine_firstn_bound 1 (skipn 4 w)) as H1.
  change (2 ^ (8 * Z.of_nat 4)) with (2 ^ 32) in H4.
  change (2 ^ (8 * Z.of_nat 1)) with (2 ^ 8) in H1.
  set (s := le_combine (firstn 4 w)) in *.
  set (v := le_combine (firstn 1 (skipn 4 w))) in *.
  clearbody s v.
  intros [= <- _].
  unfold CommandResponseMessage.valid.
  cbn [CommandResponseMessage.source_sequence_num
       CommandResponseMessage.response].
  assert (Hint : CommandResponseMessage.int
                   match CommandResponseMessage.Response_call v with
                   | Return r => CommandResponseMessage.Member r
                   | Raise _ => CommandResponseMessage.Plain v
                   end = v).
  { destruct (CommandResponseMessage.Response_call v) as [r|e] eqn:E;
      [|reflexivity].
    now apply Response_call_member in E as [E _]. }
  rewrite Hint. split.
  - repeat (apply andb_true_iff; split);
      try (apply Z.leb_le; lia); apply Z.ltb_lt; lia.
  - destruct (CommandResponseMessage.Response_call v) as [r|e] eqn:E;
      cbn [CommandResponseMessage.canonical]; [reflexivity|now rewrite E].
Qed.

Lemma MessageRequest_unpack_valid members self buffer offset self' n :
  MessageRequest.unpack members self buffer offset = (self', Return n) ->
  MessageRequest.valid members self' = true.
Proof.
  rewrite MessageRequest_unpack_eq.
  rewrite (unpack_from_eq MessageRequest._FORMAT [code_H; code_x; code_x])
    by reflexivity.
  destruct (resolve_offset _ _ _) as [start|]; [|discriminate].
  cbn [unpack_internal code_size].
  set (w := window buffer start _).
  pose proof (le_combine_firstn_bound 2 w) as H2.
  change (2 ^ (8 * Z.of_nat 2)) with (2 ^ 16) in H2.
  set (v := le_combine (firstn 2 w)) in *.
  clearbody v.
  unfold defs.MessageType.
  destruct (existsb (Z.eqb v) members) eqn:E; [|discriminate].
  intros [= <- _]. unfold MessageRequest.valid.
  cbn [MessageRequest.message_type defs.value]. rewrite E.
  repeat (apply andb_true_iff; split);
    [reflexivity|apply Z.leb_le; lia|apply Z.ltb_lt; lia].
Qed.

Lemma ResetRequest_unpack_valid self buffer offset self' n :
  ResetRequest.unpack self buffer offset = (self', Return n) ->
  ResetRequest.valid self' = true.
Proof.
  rewrite ResetRequest_unpack_eq.
  rewrite (unpack_from_eq ResetRequest._FORMAT [code_I]) by reflexivity.
  destruct (resolve_offset _ _ _) as [start|]; [|discriminate].
  cbn [unpack_internal code_size].
  set (w := window buffer start _).
  pose proof (le_combine_firstn_bound 4 w) as H4.
  change (2 ^ (8 * Z.of_nat 4)) with (2 ^ 32) in H4.
  set (v := le_combine (firstn 4 w)) in *. clearbody v.
  intros [= <- _]. unfold ResetRequest.valid. cbn [ResetRequest.reset_mask].
  apply andb_true_iff; split; [apply Z.leb_le; lia|apply Z.ltb_lt; lia].
Qed.

End UnpackResult.

(** Whatever [unpack] returns from, at whatever offset, it leaves
    attributes that [pack] accepts: a sequence number and a mask within 32
    bits, a response of integer value within a byte that is a plain integer
    only when [Response] has no member of that value, a [MessageType] member
    of value within 16 bits. *)
Theorem unpack_leaves_packable :
  (forall self buffer offset self' n,
     CommandResponseMessage.unpack self buffer offset = (self', Return n) ->
     CommandResponseMessage.valid self' = true
     /\ CommandResponseMessage.canonical
          (CommandResponseMessage.response self') = true)
  /\ (forall members self buffer offset self' n,
        MessageRequest.unpack members self buffer offset = (self', Return n) ->
        MessageRequest.valid members self' = true)
  /\ (forall self buffer offset self' n,
        ResetRequest.unpack self buffer offset = (self', Return n) ->
        ResetRequest.valid self' = true).
Proof.
  repeat apply conj.
  - exact CommandResponse_unpack_valid.
  - exact MessageRequest_unpack_valid.
  - exact ResetRequest_unpack_valid.
Qed.

Lemma unpack_leaves_packable_witness :
  (CommandResponseMessage.valid
     {| CommandResponseMessage.source_sequence_num := 4294967295;
        CommandResponseMessage.response := CommandResponseMessage.Plain 255 |}
   = true
   /\ CommandResponseMessage.canonical (CommandResponseMessage.Plain 255)
      = true)
  /\ MessageRequest.valid [0; 13000]
       {| MessageRequest.message_type :=
            MessageRequest.Member {| defs.value := 13000 |} |} = true
  /\ ResetRequest.valid {| ResetRequest.reset_mask := 4294967295 |} = true.
Proof.
  repeat apply conj.
  - apply (proj1 unpack_leaves_packable CommandResponseMessage.__init__
             (repeat Byte.xff 8) 0 _ 8). reflexivity.
  - apply (proj1 unpack_leaves_packable CommandResponseMessage.__init__
             (repeat Byte.xff 8) 0
             {| CommandResponseMessage.source_sequence_num := 4294967295;
                CommandResponseMessage.response :=
                  CommandResponseMessage.Plain 255 |} 8). reflexivity.
  - apply (proj1 (proj2 unpack_leaves_packable) [0; 13000]
             (MessageRequest.__init__
                (MessageRequest.Member {| defs.value := 0 |}))
             [Byte.xc8; Byte.x32; Byte.x00; Byte.x00] 0 _ 4). reflexivity.
  - apply (proj2 (proj2 unpack_leaves_packable) ResetRequest.__init__
             (repeat Byte.xff 4) 0 _ 4). reflexivity.
Defined.

(** ** From bytes to attributes and back *)

Section BytesRoundTrip.

Import struct.

Lemma firstn_succ_nth {A} (l : list A) n x :
  nth_error l n = Some x -> firstn (S n) l = firstn n l ++ [x].
Proof.
  revert l; induction n as [|n IH]; intros [|a l] H; try discriminate.
  - now injection H as ->.
  - cbn [firstn app]. f_equal. now apply IH.
Qed.

Lemma CommandResponse_repack self buffer offset out pos return_buffer :
  0 <= offset -> offset + 8 <= len buffer ->
  0 <= pos -> pos + 8 <= len (buffer_or_new out 8) ->
  exists self' n r,
    CommandResponseMessage.unpack self buffer offset = (self', Return n)
    /\ snd (CommandResponseMessage.pack self' out pos return_buffer)
       = Return r
    /\ window (fst (CommandResponseMessage.pack self' out pos return_buffer))
         pos 8
       = firstn 5 (window buffer offset 8) ++ [Byte.x00; Byte.x00; Byte.x00].
Proof.
  intros H0 Hfit Hpos Hout.
  destruct (byte_at_fits buffer (offset + 4)) as [b Hb]; [lia|].
  destruct (CommandResponseMessage.unpack self buffer offset)
    as [self' [n|e]] eqn:Hu.
  2:{ rewrite CommandResponse_unpack_eq,
        (CommandResponse_unpack_from _ _ _ H0 Hfit Hb) in Hu. discriminate. }
  pose proof (CommandResponse_unpack_valid _ _ _ _ _ Hu) as [Hv _].
  rewrite CommandResponse_unpack_eq,
    (CommandResponse_unpack_from _ _ _ H0 Hfit Hb) in Hu.
  injection Hu as Hs _.
  exists self', n. eexists.
  split; [reflexivity|].
  rewrite CommandResponse_pack_valid by assumption.
  split; [reflexivity|]. cbn [fst].
  assert (Hint : CommandResponseMessage.int
                   (CommandResponseMessage.response self') = byte.unsigned b).
  { rewrite <- Hs. cbn [CommandResponseMessage.response].
    destruct (CommandResponseMessage.Response_call (byte.unsigned b))
      as [r|e] eqn:E; [|reflexivity].
    now apply Response_call_member in E as [E _]. }
  assert (Hseq : CommandResponseMessage.source_sequence_num self'
                 = le_combine (window buffer offset 4))
    by (now rewrite <- Hs).
  rewrite Hint, Hseq.
  assert (Hl4 : length (window buffer offset 4) = 4%nat)
    by (apply window_length; lia).
  assert (Hw4 : le_split 4 (le_combine (window buffer offset 4))
                = window buffer offset 4)
    by (rewrite <- Hl4 at 1; apply split_le_combine).
  assert (Hw1 : le_split 1 (byte.unsigned b) = [b])
    by (change (le_split 1 (byte.unsigned b))
          with [byte.of_Z (byte.unsigned b)];
        now rewrite byte.of_Z_unsigned).
  rewrite Hw4, Hw1.
  assert (Hw5 : firstn 5 (window buffer offset 8)
                = window buffer offset 4 ++ [b]).
  { rewrite (firstn_succ_nth _ 4 b).
    - unfold window. now rewrite firstn_firstn.
    - rewrite byte_at_window by lia. exact Hb. }
  rewrite Hw5, <- app_assoc.
  unfold len in Hout.
  set (w := window buffer offset 4 ++ [b] ++ [Byte.x00; Byte.x00; Byte.x00]).
  assert (Hw : length w = 8%nat)
    by (unfold w; rewrite length_app, Hl4; reflexivity).
  rewrite <- Hw. apply window_splice. lia.
Qed.

Lemma ResetRequest_repack self buffer offset out pos return_buffer :
  0 <= offset -> offset + 4 <= len buffer ->
  0 <= pos -> pos + 4 <= len (buffer_or_new out 4) ->
  exists self' r,
    ResetRequest.unpack self buffer offset = (self', Return 4)
    /\ snd (ResetRequest.pack self' out pos return_buffer) = Return r
    /\ window (fst (ResetRequest.pack self' out pos return_buffer)) pos 4
       = window buffer offset 4.
Proof.
  intros H0 Hfit Hpos Hout.
  rewrite ResetRequest_unpack_eq, ResetRequest_unpack_from by assumption.
  do 2 eexists. split; [reflexivity|].
  pose proof (window_bound buffer offset 4) as Hb.
  change (2 ^ (8 * Z.of_nat 4)) with (2 ^ 32) in Hb.
  rewrite ResetRequest_pack_valid; try assumption.
  2:{ unfold ResetRequest.valid. cbn [ResetRequest.reset_mask].
      apply andb_true_iff; split; [apply Z.leb_le|apply Z.ltb_lt]; lia. }
  split; [reflexivity|]. cbn [fst ResetRequest.reset_mask].
  assert (Hl4 : length (window buffer offset 4) = 4%nat)
    by (apply window_length; lia).
  assert (Hw4 : le_split 4 (le_combine (window buffer offset 4))
                = window buffer offset 4)
    by (rewrite <- Hl4 at 1; apply split_le_combine).
  rewrite Hw4, app_nil_r. unfold len in Hout.
  rewrite <- Hl4 at 2. apply window_splice. lia.
Qed.

End BytesRoundTrip.

(** Unpacking a received payload and packing the instance again reproduces
    the payload: all four bytes of a reset request, and the five field
    bytes of a command response followed by three zero bytes, whatever its
    pad bytes were. Both calls succeed on every payload. *)
Theorem unpack_then_pack_reproduces_payload :
  (forall self buffer offset out pos return_buffer,
     0 <= offset -> offset + 8 <= len buffer ->
     0 <= pos -> pos + 8 <= len (buffer_or_new out 8) ->
     exists self' n r,
       CommandResponseMessage.unpack self buffer offset = (self', Return n)
       /\ snd (CommandResponseMessage.pack self' out pos return_buffer)
          = Return r
       /\ struct.window
            (fst (CommandResponseMessage.pack self' out pos return_buffer))
            pos 8
          = firstn 5 (struct.window buffer offset 8)
              ++ [Byte.x00; Byte.x00; Byte.x00])
  /\ (forall self buffer offset out pos return_buffer,
        0 <= offset -> offset + 4 <= len buffer ->
        0 <= pos -> pos + 4 <= len (buffer_or_new out 4) ->
        exists self' r,
          ResetRequest.unpack self buffer offset = (self', Return 4)
          /\ snd (ResetRequest.pack self' out pos return_buffer) = Return r
          /\ struct.window
               (fst (ResetRequest.pack self' out pos return_buffer)) pos 4
             = struct.window buffer offset 4).
Proof.
  split.
  - exact CommandResponse_repack.
  - exact ResetRequest_repack.
Qed.

Lemma unpack_then_pack_reproduces_payload_witness :
  (exists self' n r,
     CommandResponseMessage.unpack CommandResponseMessage.__init__
       [Byte.x2a; Byte.x00; Byte.x00; Byte.x00;
        Byte.xc8; Byte.xff; Byte.xfe; Byte.xfd] 0 = (self', Return n)
     /\ snd (CommandResponseMessage.pack self' None 0 true) = Return r
     /\ struct.window (fst (CommandResponseMessage.pack self' None 0 true)) 0 8
        = [Byte.x2a; Byte.x00; Byte.x00; Byte.x00;
           Byte.xc8; Byte.x00; Byte.x00; Byte.x00])
  /\ (exists self' r,
        ResetRequest.unpack ResetRequest.__init__
          [Byte.xff; Byte.xff; Byte.xff; Byte.xff] 0 = (self', Return 4)
        /\ snd (ResetRequest.pack self' None 0 true) = Return r
        /\ struct.window (fst (ResetRequest.pack self' None 0 true)) 0 4
           = [Byte.xff; Byte.xff; Byte.xff; Byte.xff]).
Proof.
  split.
  - apply (proj1 unpack_then_pack_reproduces_payload
             CommandResponseMessage.__init__
             [Byte.x2a; Byte.x00; Byte.x00; Byte.x00;
              Byte.xc8; Byte.xff; Byte.xfe; Byte.xfd] 0 None 0 true);
      (lia || (vm_compute; discriminate)).
  - apply (proj2 unpack_then_pack_reproduces_payload ResetRequest.__init__
             [Byte.xff; Byte.xff; Byte.xff; Byte.xff] 0 None 0 true);
      (lia || (vm_compute; discriminate)).
Defined.

(** ** Negative offsets *)

(** The offset goes to [struct] as it is, so a negative one counts from
    the end of the buffer: with [size <= k <= len(buffer)], offset [-k]
    writes and reads the same bytes as offset [len(buffer) - k]. *)
Theorem negative_offset_counts_from_end :
  (forall self buffer k return_buffer,
     8 <= k <= len buffer ->
     fst (CommandResponseMessage.pack self (Some buffer) (- k) return_buffer)
     = fst (CommandResponseMessage.pack self (Some buffer) (len buffer - k)
              return_buffer)
     /\ fst (CommandResponseMessage.unpack self buffer (- k))
        = fst (CommandResponseMessage.unpack self buffer (len buffer - k)))
  /\ (forall members self buffer k return_buffer,
        4 <= k <= len buffer ->
        MessageRequest.pack self (Some buffer) (- k) return_buffer
        = MessageRequest.pack self (Some buffer) (len buffer - k)
            return_buffer
        /\ MessageRequest.unpack members self buffer (- k)
           = MessageRequest.unpack members self buffer (len buffer - k))
  /\ (forall self buffer k return_buffer,
        4 <= k <= len buffer ->
        ResetRequest.pack self (Some buffer) (- k) return_buffer
        = ResetRequest.pack self (Some buffer) (len buffer - k) return_buffer
        /\ ResetRequest.unpack self buffer (- k)
           = ResetRequest.unpack self buffer (len buffer - k)).
Proof.
  repeat apply conj.
  - intros self buffer k rb Hk.
    rewrite !CommandResponse_pack_eq, !CommandResponse_unpack_eq.
    rewrite !(unpack_from_eq CommandResponseMessage._FORMAT
                [struct.code_I; struct.code_B; struct.code_x; struct.code_x;
                 struct.code_x]) by reflexivity.
    cbv zeta. cbn [buffer_or_new].
    change (Z.of_nat (struct.size_of _)) with 8.
    rewrite resolve_offset_negative, resolve_offset_fits by lia.
    split; [reflexivity|].
    now destruct (struct.unpack_internal _ _) as [|f0 [|f1 [|f2 fs]]].
  - intros members self buffer k rb Hk.
    rewrite !MessageRequest_pack_eq, !MessageRequest_unpack_eq.
    rewrite !(unpack_from_eq MessageRequest._FORMAT
                [struct.code_H; struct.code_x; struct.code_x]) by reflexivity.
    cbv zeta. cbn [buffer_or_new].
    change (Z.of_nat (struct.size_of _)) with 4.
    rewrite resolve_offset_negative, resolve_offset_fits by lia.
    split; reflexivity.
  - intros self buffer k rb Hk.
    rewrite !ResetRequest_pack_eq, !ResetRequest_unpack_eq.
    rewrite !(unpack_from_eq ResetRequest._FORMAT [struct.code_I])
      by reflexivity.
    cbv zeta. cbn [buffer_or_new].
    change (Z.of_nat (struct.size_of _)) with 4.
    rewrite resolve_offset_negative, resolve_offset_fits by lia.
    split; reflexivity.
Qed.

Lemma negative_offset_counts_from_end_witness :
  (fst (CommandResponseMessage.pack CommandResponseMessage.__init__
          (Some (repeat Byte.xff 12)) (- 8) true)
   = fst (CommandResponseMessage.pack CommandResponseMessage.__init__
            (Some (repeat Byte.xff 12)) (len (repeat Byte.xff 12) - 8) true)
   /\ fst (CommandResponseMessage.unpack CommandResponseMessage.__init__
             (repeat Byte.xff 12) (- 8))
      = fst (CommandResponseMessage.unpack CommandResponseMessage.__init__
               (repeat Byte.xff 12) (len (repeat Byte.xff 12) - 8)))
  /\ (MessageRequest.pack
        (MessageRequest.__init__
           (MessageRequest.Member {| defs.value := 13000 |}))
        (Some (repeat Byte.xff 12)) (- 5) false
      = MessageRequest.pack
          (MessageRequest.__init__
             (MessageRequest.Member {| defs.value := 13000 |}))
          (Some (repeat Byte.xff 12)) (len (repeat Byte.xff 12) - 5) false
      /\ MessageRequest.unpack [0; 13000]
           (MessageRequest.__init__
              (MessageRequest.Member {| defs.value := 13000 |}))
           (repeat Byte.x00 12) (- 5)
         = MessageRequest.unpack [0; 13000]
             (MessageRequest.__init__
                (MessageRequest.Member {| defs.value := 13000 |}))
             (repeat Byte.x00 12) (len (repeat Byte.x00 12) - 5))
  /\ (ResetRequest.pack ResetRequest.__init__ (Some (repeat Byte.xff 12))
        (- 12) false
      = ResetRequest.pack ResetRequest.__init__ (Some (repeat Byte.xff 12))
          (len (repeat Byte.xff 12) - 12) false
      /\ ResetRequest.unpack ResetRequest.__init__ (repeat Byte.xff 12) (- 12)
         = ResetRequest.unpack ResetRequest.__init__ (repeat Byte.xff 12)
             (len (repeat Byte.xff 12) - 12)).
Proof.
  repeat apply conj.
  - apply (proj1 negative_offset_counts_from_end
             CommandResponseMessage.__init__ (repeat Byte.xff 12) 8 true).
    split; [lia|vm_compute; discriminate].
  - apply (proj1 negative_offset_counts_from_end
             CommandResponseMessage.__init__ (repeat Byte.xff 12) 8 true).
    split; [lia|vm_compute; discriminate].
  - apply (proj1 (proj2 negative_offset_counts_from_end) [0; 13000]
             (MessageRequest.__init__
                (MessageRequest.Member {| defs.value := 13000 |}))
             (repeat Byte.xff 12) 5 false).
    split; [lia|vm_compute; discriminate].
  - apply (proj1 (proj2 negative_offset_counts_from_end) [0; 13000]
             (MessageRequest.__init__
                (MessageRequest.Member {| defs.value := 13000 |}))
             (repeat Byte.x00 12) 5 false).
    split; [lia|vm_compute; discriminate].
  - apply (proj2 (proj2 negative_offset_counts_from_end)
             ResetRequest.__init__ (repeat Byte.xff 12) 12 false).
    split; [lia|vm_compute; discriminate].
  - apply (proj2 (proj2 negative_offset_counts_from_end)
             ResetRequest.__init__ (repeat Byte.xff 12) 12 false).
    split; [lia|vm_compute; discriminate].
Defined.

(** ** Distinct attributes, distinct bytes *)

(** [pack] is injective on valid attributes: two instances packed to the
    same bytes have the same mask, the same message type, or the same
    sequence number and the same integer value of the response. *)
Theorem pack_injective :
  (forall x y out pos,
     CommandResponseMessage.valid x = true ->
     CommandResponseMessage.valid y = true ->
     0 <= pos -> pos + 8 <= len (buffer_or_new out 8) ->
     fst (CommandResponseMessage.pack x out pos true)
     = fst (CommandResponseMessage.pack y out pos true) ->
     CommandResponseMessage.source_sequence_num x
     = CommandResponseMessage.source_sequence_num y
     /\ CommandResponseMessage.int (CommandResponseMessage.response x)
        = CommandResponseMessage.int (CommandResponseMessage.response y))
  /\ (forall members x y out pos,
        MessageRequest.valid members x = true ->
        MessageRequest.valid members y = true ->
        0 <= pos -> pos + 4 <= len (buffer_or_new out 4) ->
        fst (MessageRequest.pack x out pos true)
        = fst (MessageRequest.pack y out pos true) ->
        x = y)
  /\ (forall x y out pos,
        ResetRequest.valid x = true -> ResetRequest.valid y = true ->
        0 <= pos -> pos + 4 <= len (buffer_or_new out 4) ->
        fst (ResetRequest.pack x out pos true)
        = fst (ResetRequest.pack y out pos true) ->
        x = y).
Proof.
  repeat apply conj.
  - intros x y out pos Hx Hy H0 Hfit Heq.
    destruct (CommandResponse_roundtrip x x out pos Hx H0 Hfit)
      as (b1 & x' & n1 & Hp1 & Hu1 & Hs1 & Hi1 & _).
    destruct (CommandResponse_roundtrip y x out pos Hy H0 Hfit)
      as (b2 & y' & n2 & Hp2 & Hu2 & Hs2 & Hi2 & _).
    rewrite Hp1, Hp2 in Heq. cbn [fst] in Heq. subst b2.
    rewrite Hu1 in Hu2. injection Hu2 as -> _.
    split; congruence.
  - intros members x y out pos Hx Hy H0 Hfit Heq.
    destruct (MessageRequest_roundtrip members x x out pos Hx H0 Hfit)
      as (b1 & Hp1 & Hu1).
    destruct (MessageRequest_roundtrip members y x out pos Hy H0 Hfit)
      as (b2 & Hp2 & Hu2).
    rewrite Hp1, Hp2 in Heq. cbn [fst] in Heq. subst b2.
    rewrite Hu1 in Hu2. now injection Hu2.
  - intros x y out pos Hx Hy H0 Hfit Heq.
    destruct (ResetRequest_roundtrip x x out pos Hx H0 Hfit)
      as (b1 & Hp1 & Hu1).
    destruct (ResetRequest_roundtrip y x out pos Hy H0 Hfit)
      as (b2 & Hp2 & Hu2).
    rewrite Hp1, Hp2 in Heq. cbn [fst] in Heq. subst b2.
    rewrite Hu1 in Hu2. now injection Hu2.
Qed.

Lemma pack_injective_witness :
  (3 = 3 /\ 3 = 3)
  /\ MessageRequest.__init__ (MessageRequest.Member {| defs.value := 13000 |})
     = MessageRequest.__init__
         (MessageRequest.Member {| defs.value := 13000 |})
  /\ {| ResetRequest.reset_mask := ResetRequest.COLD_START |}
     = {| ResetRequest.reset_mask := ResetRequest.COLD_START |}.
Proof.
  repeat apply conj.
  - apply (proj1 pack_injective
             {| CommandResponseMessage.source_sequence_num := 3;
                CommandResponseMessage.response :=
                  CommandResponseMessage.Member
                    CommandResponseMessage.VALUE_ERROR |}
             {| CommandResponseMessage.source_sequence_num := 3;
                CommandResponseMessage.response :=
                  CommandResponseMessage.Plain 3 |} None 0);
      (reflexivity || lia || (vm_compute; discriminate)).
  - apply (proj1 pack_injective
             {| CommandResponseMessage.source_sequence_num := 3;
                CommandResponseMessage.response :=
                  CommandResponseMessage.Member
                    CommandResponseMessage.VALUE_ERROR |}
             {| CommandResponseMessage.source_sequence_num := 3;
                CommandResponseMessage.response :=
                  CommandResponseMessage.Plain 3 |} None 0);
      (reflexivity || lia || (vm_compute; discriminate)).
  - apply (proj1 (proj2 pack_injective) [0; 13000] _ _ None 0);
      (reflexivity || lia || (vm_compute; discriminate)).
  - apply (proj2 (proj2 pack_injective) _ _ None 0);
      (reflexivity || lia || (vm_compute; discriminate)).
Defined.

(** ** Two messages in one buffer *)

(** A command response and a reset request packed into one buffer at
    windows that do not overlap do not disturb each other: after both
    [pack] calls, each [unpack] at its own offset succeeds and gives back
    what was packed there. *)
Theorem two_messages_share_a_buffer
    (x fresh1 : CommandResponseMessage.t) (y fresh2 : ResetRequest.t)
    (buffer : bytearray) (p1 p2 : Z) :
  CommandResponseMessage.valid x = true ->
  ResetRequest.valid y = true ->
  0 <= p1 -> p1 + 8 <= len buffer ->
  0 <= p2 -> p2 + 4 <= len buffer ->
  p1 + 8 <= p2 \/ p2 + 4 <= p1 ->
  exists b1 b2 x' n,
    CommandResponseMessage.pack x (Some buffer) p1 true
    = (b1, Return RetBuffer)
    /\ ResetRequest.pack y (Some b1) p2 true = (b2, Return RetBuffer)
    /\ ResetRequest.unpack fresh2 b2 p2 = (y, Return 4)
    /\ CommandResponseMessage.unpack fresh1 b2 p1 = (x', Return n)
    /\ CommandResponseMessage.source_sequence_num x'
       = CommandResponseMessage.source_sequence_num x
    /\ CommandResponseMessage.int (CommandResponseMessage.response x')
       = CommandResponseMessage.int (CommandResponseMessage.response x).
Proof.
  intros Hx Hy H1 Hf1 H2 Hf2 Hdis.
  destruct (CommandResponse_roundtrip x fresh1 (Some buffer) p1 Hx H1 Hf1)
    as (b1 & x' & n & Hp1 & Hu1 & Hs & Hi & _).
  assert (Hb1 : b1 = struct.splice buffer p1
                       (le_split 4 (CommandResponseMessage.source_sequence_num x)
                          ++ le_split 1
                               (CommandResponseMessage.int
                                  (CommandResponseMessage.response x))
                          ++ [Byte.x00; Byte.x00; Byte.x00])).
  { rewrite CommandResponse_pack_valid in Hp1 by assumption.
    now injection Hp1. }
  assert (Hl1 : length b1 = length buffer).
  { rewrite Hb1. apply length_splice; [lia|].
    rewrite length_app, length_le_split. unfold len in Hf1. simpl. lia. }
  assert (Hf2' : p2 + 4 <= len (buffer_or_new (Some b1) 4))
    by (cbn [buffer_or_new]; unfold len in *; lia).
  destruct (ResetRequest_roundtrip y fresh2 (Some b1) p2 Hy H2 Hf2')
    as (b2 & Hp2 & Hu2).
  exists b1, b2, x', n.
  repeat (split; [assumption|]). split; [|split; assumption].
  rewrite <- Hu1.
  assert (Hb2 : b2 = struct.splice b1 p2
                       (le_split 4 (ResetRequest.reset_mask y) ++ [])).
  { rewrite ResetRequest_pack_valid in Hp2 by assumption.
    now injection Hp2. }
  assert (Hl2 : length b2 = length b1).
  { rewrite Hb2. apply length_splice; [lia|].
    rewrite length_app, length_le_split. unfold len in *. simpl. lia. }
  rewrite !CommandResponse_unpack_eq.
  rewrite (unpack_from_pad_agree CommandResponseMessage._FORMAT
             [struct.code_I; struct.code_B; struct.code_x; struct.code_x;
              struct.code_x] b2 b1);
    try assumption; try reflexivity.
  intros i Hi' _. cbn [struct.size_of struct.code_size Nat.add] in Hi'.
  rewrite Hb2. apply byte_at_splice_outside; [lia| |].
  - rewrite length_app, length_le_split. unfold len in *. simpl. lia.
  - rewrite length_app, length_le_split. simpl. lia.
Qed.

Lemma two_messages_share_a_buffer_witness :
  exists b1 b2 x' n,
    CommandResponseMessage.pack
      {| CommandResponseMessage.source_sequence_num := 42;
         CommandResponseMessage.response :=
           CommandResponseMessage.Member CommandResponseMessage.VALUE_ERROR |}
      (Some (repeat Byte.xff 12)) 4 true = (b1, Return RetBuffer)
    /\ ResetRequest.pack
         {| ResetRequest.reset_mask := ResetRequest.WARM_START |}
         (Some b1) 0 true = (b2, Return RetBuffer)
    /\ ResetRequest.unpack ResetRequest.__init__ b2 0
       = ({| ResetRequest.reset_mask := ResetRequest.WARM_START |}, Return 4)
    /\ CommandResponseMessage.unpack CommandResponseMessage.__init__ b2 4
       = (x', Return n)
    /\ CommandResponseMessage.source_sequence_num x' = 42
    /\ CommandResponseMessage.int (CommandResponseMessage.response x') = 3.
Proof.
  apply (two_messages_share_a_buffer
           {| CommandResponseMessage.source_sequence_num := 42;
              CommandResponseMessage.response :=
                CommandResponseMessage.Member
                  CommandResponseMessage.VALUE_ERROR |}
           CommandResponseMessage.__init__
           {| ResetRequest.reset_mask := ResetRequest.WARM_START |}
           ResetRequest.__init__ (repeat Byte.xff 12) 4 0);
    try reflexivity; try lia; try (vm_compute; discriminate).
Defined.

(** ** Reset masks *)

Section ResetMasks.

Import ResetRequest.

(** The masks that set no bit outside [FACTORY_RESET]: the upper eight
    bits, reserved, stay clear. *)
Lemma within_factory_reset_valid m :
  0 <= m -> Z.land m FACTORY_RESET = m -> valid {| reset_mask := m |} = true.
Proof.
  intros H0 Hm. unfold valid. cbn [reset_mask].
  change FACTORY_RESET with (Z.ones 24) in Hm.
  rewrite Z.land_ones in Hm by lia.
  pose proof (Z.mod_pos_bound m (2 ^ 24) eq_refl) as Hb.
  rewrite Hm in Hb.
  apply andb_true_iff; split; [apply Z.leb_le|apply Z.ltb_lt]; lia.
Qed.

Lemma Forall_lor_within (flags : list Z) :
  Forall (fun f => 0 <= f /\ Z.land f FACTORY_RESET = f) flags ->
  0 <= fold_right Z.lor 0 flags
  /\ Z.land (fold_right Z.lor 0 flags) FACTORY_RESET
     = fold_right Z.lor 0 flags.
Proof.
  induction 1 as [|f flags [Hf0 Hf] _ [IH0 IH]];
    [split; [cbn [fold_right]; lia|reflexivity]|].
  cbn [fold_right]. split.
  - apply Z.lor_nonneg. lia.
  - now rewrite Z.land_lor_distr_l, Hf, IH.
Qed.

End ResetMasks.

(** Any combination, by bitwise or, of the named reset bits and presets is
    a mask [pack] accepts: it sets no bit outside [FACTORY_RESET], so the
    reserved upper eight bits stay clear, and packing then unpacking it
    gives the same mask back. *)
Theorem ResetRequest_flags_combine (flags : list Z) (fresh : ResetRequest.t) :
  Forall (fun f =>
            In f [ResetRequest.RESTART_NAVIGATION_ENGINE;
                  ResetRequest.RESET_CORRECTIONS;
                  ResetRequest.RESET_POSITION_DATA;
                  ResetRequest.RESET_EPHEMERIS;
                  ResetRequest.RESET_NAVIGATION_ENGINE_DATA;
                  ResetRequest.RESET_CALIBRATION_DATA;
                  ResetRequest.RESET_CONFIG;
                  ResetRequest.HOT_START; ResetRequest.WARM_START;
                  ResetRequest.COLD_START; ResetRequest.FACTORY_RESET]) flags ->
  Z.land (fold_right Z.lor 0 flags) ResetRequest.FACTORY_RESET
  = fold_right Z.lor 0 flags
  /\ exists buf,
       ResetRequest.pack
         {| ResetRequest.reset_mask := fold_right Z.lor 0 flags |} None 0 true
       = (buf, Return RetBuffer)
       /\ ResetRequest.unpack fresh buf 0
          = ({| ResetRequest.reset_mask := fold_right Z.lor 0 flags |},
             Return 4).
Proof.
  intros H.
  assert (Hw : Forall (fun f => 0 <= f
                          /\ Z.land f ResetRequest.FACTORY_RESET = f) flags).
  { eapply Forall_impl; [|exact H]. intros f Hf. cbn [In] in Hf.
    repeat (destruct Hf as [<-|Hf]; [split; [vm_compute; discriminate
                                            |reflexivity]|]).
    contradiction. }
  apply Forall_lor_within in Hw as [H0 Hm].
  split; [exact Hm|].
  apply ResetRequest_roundtrip;
    [now apply within_factory_reset_valid|lia|vm_compute; discriminate].
Qed.

Lemma ResetRequest_flags_combine_witness :
  Z.land 0x101100 ResetRequest.FACTORY_RESET = 0x101100
  /\ exists buf,
       ResetRequest.pack {| ResetRequest.reset_mask := 0x101100 |} None 0 true
       = (buf, Return RetBuffer)
       /\ ResetRequest.unpack ResetRequest.__init__ buf 0
          = ({| ResetRequest.reset_mask := 0x101100 |}, Return 4).
Proof.
  apply (ResetRequest_flags_combine
           [ResetRequest.RESET_POSITION_DATA;
            ResetRequest.RESET_NAVIGATION_ENGINE_DATA;
            ResetRequest.RESET_CONFIG] ResetRequest.__init__).
  repeat constructor; cbn [In]; tauto.
Defined.

(** ** [ResetRequest.__str__] *)

Section ResetRequestText.

Import ResetRequest.










End ResetRequestText.



(** ** What a call to [pack] does to the buffer *)

Section PackEffects.

Import struct.

Lemma length_splice_resolved b blen size offset start w :
  blen = len b -> size = Z.of_nat (length w) ->
  resolve_offset blen size offset = Some start ->
  length (splice b start w) = length b.
Proof.
  intros -> -> H. apply resolve_offset_inv in H as (H0 & Hfit & _).
  unfold len in Hfit. apply length_splice; lia.
Qed.

Lemma CommandResponse_pack_length self buffer offset return_buffer :
  len (fst (CommandResponseMessage.pack self buffer offset return_buffer))
  = len (buffer_or_new buffer CommandResponseMessage.calcsize).
Proof.
  rewrite CommandResponse_pack_eq. cbv zeta.
  change CommandResponseMessage.calcsize with 8.
  destruct (resolve_offset _ _ _) as [start|] eqn:E; [|reflexivity].
  cbn [fst]. unfold len. f_equal.
  eapply length_splice_resolved; [reflexivity| |exact E].
  now rewrite pack_internal_length.
Qed.

Lemma MessageRequest_pack_length self buffer offset return_buffer :
  len (fst (MessageRequest.pack self buffer offset return_buffer))
  = len (buffer_or_new buffer MessageRequest.calcsize).
Proof.
  rewrite MessageRequest_pack_eq. cbv zeta.
  change MessageRequest.calcsize with 4.
  destruct (MessageRequest.message_type self); [|reflexivity].
  destruct (resolve_offset _ _ _) as [start|] eqn:E; [|reflexivity].
  cbn [fst]. unfold len. f_equal.
  eapply length_splice_resolved; [reflexivity| |exact E].
  now rewrite pack_internal_length.
Qed.

Lemma ResetRequest_pack_length self buffer offset return_buffer :
  len (fst (ResetRequest.pack self buffer offset return_buffer))
  = len (buffer_or_new buffer ResetRequest.calcsize).
Proof.
  rewrite ResetRequest_pack_eq. cbv zeta.
  change ResetRequest.calcsize with 4.
  destruct (resolve_offset _ _ _) as [start|] eqn:E; [|reflexivity].
  cbn [fst]. unfold len. f_equal.
  eapply length_splice_resolved; [reflexivity| |exact E].
  now rewrite pack_internal_length.
Qed.

Lemma window_splice_sized b start w n :
  length w = n -> (Z.to_nat start <= length b)%nat ->
  window (splice b start w) start n = w.
Proof. intros <-. apply window_splice. Qed.

End PackEffects.

(** [pack] never resizes: whatever the attributes, the offset and the
    outcome, the buffer ends with the length the caller gave it, and a
    buffer [pack] allocates has exactly [calcsize()] bytes. *)
Theorem pack_never_resizes :
  (forall self buffer offset return_buffer,
     len (fst (CommandResponseMessage.pack self buffer offset return_buffer))
     = match buffer with
       | Some b => len b
       | None => CommandResponseMessage.calcsize
       end)
  /\ (forall self buffer offset return_buffer,
        len (fst (MessageRequest.pack self buffer offset return_buffer))
        = match buffer with
          | Some b => len b
          | None => MessageRequest.calcsize
          end)
  /\ (forall self buffer offset return_buffer,
        len (fst (ResetRequest.pack self buffer offset return_buffer))
        = match buffer with
          | Some b => len b
          | None => ResetRequest.calcsize
          end).
Proof.
  repeat apply conj; intros self buffer offset rb.
  - rewrite CommandResponse_pack_length. now destruct buffer.
  - rewrite MessageRequest_pack_length. now destruct buffer.
  - rewrite ResetRequest_pack_length. now destruct buffer.
Qed.

(** A [pack] that raises [struct.error] because an attribute does not fit
    its field is not atomic: the message's window in the caller's buffer
    has by then been overwritten with zeros, after the fields that did
    fit. *)
Theorem pack_failure_overwrites_window :
  (forall self buffer offset return_buffer,
     CommandResponseMessage.valid self = false ->
     0 <= offset -> offset + 8 <= len buffer ->
     snd (CommandResponseMessage.pack self (Some buffer) offset return_buffer)
     = Raise StructError
     /\ struct.window
          (fst (CommandResponseMessage.pack self (Some buffer) offset
                  return_buffer)) offset 8
        = (if struct.in_range struct.code_I
                (CommandResponseMessage.source_sequence_num self)
           then le_split 4 (CommandResponseMessage.source_sequence_num self)
           else repeat Byte.x00 4) ++ repeat Byte.x00 4)
  /\ (forall self m buffer offset return_buffer,
        MessageRequest.message_type self = MessageRequest.Member m ->
        struct.in_range struct.code_H (defs.value m) = false ->
        0 <= offset -> offset + 4 <= len buffer ->
        snd (MessageRequest.pack self (Some buffer) offset return_buffer)
        = Raise StructError
        /\ struct.window
             (fst (MessageRequest.pack self (Some buffer) offset
                     return_buffer)) offset 4
           = repeat Byte.x00 4)
  /\ (forall self buffer offset return_buffer,
        ResetRequest.valid self = false ->
        0 <= offset -> offset + 4 <= len buffer ->
        snd (ResetRequest.pack self (Some buffer) offset return_buffer)
        = Raise StructError
        /\ struct.window
             (fst (ResetRequest.pack self (Some buffer) offset return_buffer))
             offset 4
           = repeat Byte.x00 4).
Proof.
  repeat apply conj.
  - intros self buffer offset rb Hv H0 Hfit.
    rewrite CommandResponse_valid_in_range in Hv.
    rewrite CommandResponse_pack_eq. cbv zeta. cbn [buffer_or_new].
    rewrite resolve_offset_fits by assumption.
    cbn [struct.pack_internal]. unfold len in Hfit.
    destruct (struct.in_range struct.code_I _); cbn [fst snd].
    + destruct (struct.in_range struct.code_B _); [discriminate|].
      cbn [fst snd]. split; [reflexivity|].
      apply window_splice_sized; [|lia].
      rewrite length_app, length_le_split. reflexivity.
    + split; [reflexivity|]. apply window_splice_sized; [reflexivity|lia].
  - intros self m buffer offset rb Hm Hv H0 Hfit.
    rewrite MessageRequest_pack_eq. cbv zeta. cbn [buffer_or_new].
    rewrite Hm, resolve_offset_fits by assumption.
    cbn [struct.pack_internal]. rewrite Hv. cbn [fst snd].
    unfold len in Hfit.
    split; [reflexivity|]. apply window_splice_sized; [reflexivity|lia].
  - intros self buffer offset rb Hv H0 Hfit.
    rewrite ResetRequest_pack_eq. cbv zeta. cbn [buffer_or_new].
    rewrite resolve_offset_fits by assumption.
    cbn [struct.pack_internal].
    change (struct.in_range struct.code_I (ResetRequest.reset_mask self))
      with (ResetRequest.valid self).
    rewrite Hv. cbn [fst snd]. unfold len in Hfit.
    split; [reflexivity|]. apply window_splice_sized; [reflexivity|lia].
Qed.

Lemma pack_failure_overwrites_window_witness :
  (snd (CommandResponseMessage.pack
          {| CommandResponseMessage.source_sequence_num := 42;
             CommandResponseMessage.response :=
               CommandResponseMessage.Plain 256 |}
          (Some (repeat Byte.xff 8)) 0 true) = Raise StructError
   /\ struct.window
        (fst (CommandResponseMessage.pack
                {| CommandResponseMessage.source_sequence_num := 42;
                   CommandResponseMessage.response :=
                     CommandResponseMessage.Plain 256 |}
                (Some (repeat Byte.xff 8)) 0 true)) 0 8
      = [Byte.x2a; Byte.x00; Byte.x00; Byte.x00;
         Byte.x00; Byte.x00; Byte.x00; Byte.x00])
  /\ (snd (MessageRequest.pack
             (MessageRequest.__init__
                (MessageRequest.Member {| defs.value := 65536 |}))
             (Some (repeat Byte.xff 8)) 4 true) = Raise StructError
      /\ struct.window
           (fst (MessageRequest.pack
                   (MessageRequest.__init__
                      (MessageRequest.Member {| defs.value := 65536 |}))
                   (Some (repeat Byte.xff 8)) 4 true)) 4 4
         = repeat Byte.x00 4)
  /\ (snd (ResetRequest.pack {| ResetRequest.reset_mask := - 1 |}
             (Some (repeat Byte.xff 8)) 2 true) = Raise StructError
      /\ struct.window
           (fst (ResetRequest.pack {| ResetRequest.reset_mask := - 1 |}
                   (Some (repeat Byte.xff 8)) 2 true)) 2 4
         = repeat Byte.x00 4).
Proof.
  split; [|split].
  - apply (proj1 pack_failure_overwrites_window
             {| CommandResponseMessage.source_sequence_num := 42;
                CommandResponseMessage.response :=
                  CommandResponseMessage.Plain 256 |}
             (repeat Byte.xff 8) 0 true);
      (reflexivity || lia || (vm_compute; discriminate)).
  - apply (proj1 (proj2 pack_failure_overwrites_window)
             (MessageRequest.__init__
                (MessageRequest.Member {| defs.value := 65536 |}))
             {| defs.value := 65536 |} (repeat Byte.xff 8) 4 true);
      (reflexivity || lia || (vm_compute; discriminate)).
  - apply (proj2 (proj2 pack_failure_overwrites_window)
             {| ResetRequest.reset_mask := - 1 |} (repeat Byte.xff 8) 2 true);
      (reflexivity || lia || (vm_compute; discriminate)).
Defined.
